(** * plugins/modules/user.py: create / update / remove Cloud Control users

    A shallow embedding of the Ansible module [user.py] and the properties
    of its compare-then-converge logic.

    - Python objects of the user record are JSON values; a dict is a
      [gmap string _], so that equality of records is equality of their
      lookups, as [==] on Python dicts is.
    - [module.exit_json] and [module.fail_json] end the process: they are
      outcomes of a small state-and-exit monad, next to the Python
      exceptions the module does not catch.
    - The API client is an external collaborator: a record of methods over
      an arbitrary world, each one able to raise [NTTMCPAPIException].
      Every call is appended to a trace.  [sleep(3)] has no effect on
      either and is left out.
    - [compare_json] is imported from [module_utils.utils]; the module
      only calls it and tests [.get('changes')] on its result.  The
      functions of [user.py] are therefore written over an interface
      [Diff], and an instance built from the documented contract of the
      Delta is given separately. *)

From Stdlib Require Import ZArith.
From stdpp Require Import gmap strings list fin_maps pretty.

Open Scope string_scope.

(** ** Values of the user record *)

Inductive atom :=
| ANone
| ABool (b : bool)
| AInt (z : Z)
| AStr (s : string).

(** The user object of the API holds scalars, lists of scalars ([role])
    and objects of scalars ([phone], [organization]). *)
Inductive value :=
| VAtom (a : atom)
| VList (l : list atom)
| VDict (d : gmap string atom).

#[global] Instance atom_eq_dec : EqDecision atom.
Proof. solve_decision. Defined.

#[global] Instance value_eq_dec : EqDecision value.
Proof. solve_decision. Defined.

Abbreviation PyNone := (VAtom ANone).
Abbreviation PyStr s := (VAtom (AStr s)).

(** Python truth value of an object ([if x:]). *)
Definition atom_truthy (a : atom) : bool :=
  match a with
  | ANone => false
  | ABool b => b
  | AInt z => negb (Z.eqb z 0)
  | AStr s => negb (String.eqb s "")
  end.

Definition truthy (v : value) : bool :=
  match v with
  | VAtom a => atom_truthy a
  | VList l => match l with [] => false | _ => true end
  | VDict d => negb (bool_decide (d = ∅))
  end.

(** A parameter or a [dict.get] result that may be [None]. *)
Definition of_opt (o : option value) : value := default PyNone o.
Definition of_str (o : option string) : value := of_opt ((fun s => PyStr s) <$> o).
Definition of_int (o : option Z) : value := of_opt ((fun z => VAtom (AInt z)) <$> o).

(** [d.get(k)] *)
Definition get (d : gmap string value) (k : string) : value := of_opt (d !! k).

(** [str(n)] for an int. *)
Definition str (z : Z) : string := pretty z.

(** [type(x) != list] *)
Definition is_list (v : value) : bool :=
  match v with VList _ => true | _ => false end.

(** [str(e).replace(..)]: every double quote becomes a single quote. *)
Definition dquote : Ascii.ascii := Ascii.ascii_of_nat 34.
Definition squote : Ascii.ascii := Ascii.ascii_of_nat 39.

Fixpoint replace_quotes (s : string) : string :=
  match s with
  | EmptyString => EmptyString
  | String c r =>
      String (if Ascii.eqb c dquote then squote else c) (replace_quotes r)
  end.

(** ['{0}'.format(x)] for a string or [None]. *)
Definition fmt (o : option string) : string := default "None" o.

(** ** The module: parameters and check mode *)

Inductive State := present | absent.

(** [module.params] after [argument_spec] has typed it.  [username] and
    [roles] keep the shapes the functions themselves test for
    ([is None], [type(..) != list]). *)
Record Params := {
  region : string;
  username : option string;
  my_user : bool;
  password : option string;
  new_password : option string;
  roles : option value;
  fullname : option string;
  firstname : option string;
  lastname : option string;
  email : option string;
  phone_country_code : option Z;
  phone : option Z;
  remove_phone : bool;
  department : option string;
  custom_1 : option string;
  custom_2 : option string;
  state : State
}.

Record Module := {
  params : Params;
  check_mode : bool
}.

(** ** The API client *)

(** Keyword arguments of [client.create_user] and [client.update_user]. *)
Record profile := {
  kw_fullname : option string;
  kw_firstname : option string;
  kw_lastname : option string;
  kw_email : option string;
  kw_phone : option Z;
  kw_phone_country_code : option Z;
  kw_department : option string;
  kw_custom_1 : option string;
  kw_custom_2 : option string
}.

Definition profile_of (p : Params) : profile :=
  {| kw_fullname := fullname p;
     kw_firstname := firstname p;
     kw_lastname := lastname p;
     kw_email := email p;
     kw_phone := phone p;
     kw_phone_country_code := phone_country_code p;
     kw_department := department p;
     kw_custom_1 := custom_1 p;
     kw_custom_2 := custom_2 p |}.

Inductive api_call :=
| GetUser (name : value)
| GetMyUser
| CreateUser (name : option string) (pw : option string) (rs : option value)
             (kw : profile)
| UpdateUser (name : value) (kw : profile)
| SetUserRoles (name : option string) (rs : option value)
| ChangeUserPassword (name : value) (pw : option string)
| RemoveUser (name : option string).

(** The calls that change the remote system. *)
Definition is_write (c : api_call) : bool :=
  match c with
  | GetUser _ | GetMyUser => false
  | _ => true
  end.

Abbreviation User := (gmap string value).

(** A method returns its result or raises [NTTMCPAPIException]; [inl s]
    carries [str(e)]. *)
Definition api (W A : Type) : Type := W -> (string + A) * W.

Record Client (W : Type) := {
  client_get_user : value -> api W (option User);
  client_get_my_user : api W (option User);
  client_create_user :
    option string -> option string -> option value -> profile -> api W unit;
  client_update_user : value -> profile -> api W unit;
  client_set_user_roles : option string -> option value -> api W unit;
  client_change_user_password : value -> option string -> api W unit;
  client_remove_user : option string -> api W string
}.

Arguments client_get_user {W}.
Arguments client_get_my_user {W}.
Arguments client_create_user {W}.
Arguments client_update_user {W}.
Arguments client_set_user_roles {W}.
Arguments client_change_user_password {W}.
Arguments client_remove_user {W}.

(** ** The interface of [compare_json] *)

(** What [user.py] uses of [utils.compare_json]: it is called on two
    objects (a dict, or [None] when a refetch found nothing) and a parent
    key, and the result is tested with [.get('changes')]. *)
Class Diff := {
  compare_result : Type;
  compare_json : option User -> option User -> option string -> compare_result;
  changes : compare_result -> bool
}.

(** ** Outcomes of a run *)

(** Python exceptions nothing in the module catches. *)
Inductive pyexn := TypeError | AttributeError | KeyError.

Inductive data `{Diff} :=
| DUser (u : option User)
| DCompare (r : compare_result).

(** [module.exit_json(changed=.., data=.., msg=..)],
    [module.fail_json(msg=..)], or a traceback. *)
Inductive outcome `{Diff} :=
| exit_json (changed : option bool) (dat : option data) (msg : option string)
| fail_json (msg : string)
| uncaught (e : pyexn).

(** ** The candidate merged record of [compare_user] *)

Definition raises (A : Type) : Type := pyexn + A.

Definition and_then {A B} (m : raises A) (f : A -> raises B) : raises B :=
  match m with
  | inl e => inl e
  | inr a => f a
  end.

#[global] Instance raises_bind : MBind raises := fun A B f m => and_then m f.
#[global] Instance raises_ret : MRet raises := fun A a => inr a.

(** [o[k] = v] *)
Definition setitem (k : string) (v : value) (o : option User)
  : raises (option User) :=
  match o with
  | None => inl TypeError
  | Some d => inr (Some (<[k := v]> d))
  end.

(** [o.get(k)] *)
Definition getattr_get (o : option User) (k : string) : raises value :=
  match o with
  | None => inl AttributeError
  | Some d => inr (get d k)
  end.

(** [o.pop(k)] *)
Definition pop (k : string) (o : option User) : raises (option User) :=
  match o with
  | None => inl AttributeError
  | Some d =>
      match d !! k with
      | None => inl KeyError
      | Some _ => inr (Some (delete k d))
      end
  end.

(** [o[k][sub] = v] *)
Definition setitem2 (k sub : string) (v : atom) (o : option User)
  : raises (option User) :=
  match o with
  | None => inl TypeError
  | Some d =>
      match d !! k with
      | None => inl KeyError
      | Some (VDict m) => inr (Some (<[k := VDict (<[sub := v]> m)]> d))
      | Some _ => inl TypeError
      end
  end.

(** [if module.params.get(p): new_user[k] = module.params.get(p)] *)
Definition overwrite (k : string) (v : value) (o : option User)
  : raises (option User) :=
  if truthy v then setitem k v o else inr o.

(** Lines 440 and 441. *)
Definition drop_phone (new_user : option User) : raises (option User) :=
  ph ← getattr_get new_user "phone";
  if truthy ph then pop "phone" new_user else inr new_user.

(** Lines 443 to 446. *)
Definition set_number (p : Params) (new_user : option User)
  : raises (option User) :=
  if truthy (of_int (phone p)) then
    ph ← getattr_get new_user "phone";
    new_user ← (if negb (truthy ph)
                then setitem "phone" (VDict ∅) new_user
                else inr new_user);
    setitem2 "phone" "number" (AStr (str (default 0%Z (phone p)))) new_user
  else inr new_user.

(** Lines 447 to 449. *)
Definition set_country_code (p : Params) (new_user : option User)
  : raises (option User) :=
  if truthy (of_int (phone_country_code p)) then
    ph ← getattr_get new_user "phone";
    if truthy ph then
      setitem2 "phone" "countryCode"
        (AStr (str (default 0%Z (phone_country_code p)))) new_user
    else inr new_user
  else inr new_user.

Definition candidate_phone (p : Params) (new_user : option User)
  : raises (option User) :=
  if remove_phone p then drop_phone new_user
  else
    new_user ← set_number p new_user;
    set_country_code p new_user.

(** Lines 426 to 455: [new_user = deepcopy(user)] and the overwrites. *)
Definition candidate (p : Params) (user : option User) (full_compare : bool)
  : raises (option User) :=
  let new_user := user in
  new_user ← overwrite "fullName" (of_str (fullname p)) new_user;
  new_user ← overwrite "lastName" (of_str (lastname p)) new_user;
  new_user ← overwrite "firstName" (of_str (firstname p)) new_user;
  new_user ← overwrite "emailAddress" (of_str (email p)) new_user;
  new_user ← (if full_compare
               then overwrite "role" (of_opt (roles p)) new_user
               else inr new_user);
  new_user ← candidate_phone p new_user;
  new_user ← overwrite "department" (of_str (department p)) new_user;
  new_user ← overwrite "customDefined1" (of_str (custom_1 p)) new_user;
  overwrite "customDefined2" (of_str (custom_2 p)) new_user.

(** ** Running the module against a client *)

Record run_state (W : Type) := {
  world : W;
  trace : list api_call
}.

Arguments world {W}.
Arguments trace {W}.

Inductive result `{Diff} (A : Type) :=
| Ret (a : A)
| Halt (o : outcome).

Arguments Ret {_ A}.
Arguments Halt {_ A}.

Definition M `{Diff} (W A : Type) : Type :=
  run_state W -> result A * run_state W.

Section Run.
Context {W : Type} `{D : Diff}.

Definition ret {A} (a : A) : M W A := fun s => (Ret a, s).

Definition bind {A B} (m : M W A) (f : A -> M W B) : M W B :=
  fun s =>
    match m s with
    | (Ret a, s') => f a s'
    | (Halt o, s') => (Halt o, s')
    end.

(** [exit_json], [fail_json] and tracebacks stop the run. *)
Definition halt {A} (o : outcome) : M W A := fun s => (Halt o, s).

(** One method call of the client, recorded in the trace. *)
Definition call {A} (c : api_call) (f : api W A) : M W (string + A) :=
  fun s =>
    let (r, w) := f (world s) in
    (Ret r, {| world := w; trace := trace s ++ [c] |}).

(** A function that never returns to its caller. *)
Definition finish (m : M W Empty_set) (s : run_state W)
  : outcome * run_state W :=
  match m s with
  | (Ret a, _) => match a with end
  | (Halt o, s') => (o, s')
  end.
End Run.

#[global] Instance M_bind `{Diff} {W} : MBind (M W) := fun A B f m => bind m f.
#[global] Instance M_ret `{Diff} {W} : MRet (M W) := fun A a => ret a.

Section Module.
Context {W : Type} `{D : Diff} (client : Client W).

Definition is_None {A} (o : option A) : bool :=
  match o with None => true | Some _ => false end.

Definition create_user (module : Module) : M W Empty_set :=
  let p := params module in
  if is_None (username p) || is_None (password p) || is_None (fullname p)
     || is_None (firstname p) || is_None (lastname p) || is_None (email p)
  then halt (fail_json
    "A valid value for username, password, fullname, firstname, lastname and email are required")
  else if negb (is_None (phone p)) && is_None (phone_country_code p)
  then halt (fail_json
    "phone_country_code is required when a value for phone is present")
  else if negb (is_None (roles p)) && negb (is_list (of_opt (roles p)))
  then halt (fail_json
    "Roles must be in provides as a list of strings representing the role names")
  else
    r ← call (CreateUser (username p) (password p) (roles p) (profile_of p))
           (client_create_user client (username p) (password p) (roles p)
              (profile_of p));
    match r with
    | inl e => halt (fail_json (replace_quotes e))
    | inr _ =>
        r ← call (GetUser (of_str (username p)))
               (client_get_user client (of_str (username p)));
        match r with
        | inl e => halt (fail_json (replace_quotes e))
        | inr user => halt (exit_json (Some true) (Some (DUser user)) None)
        end
    end.

Definition update_user (module : Module) (user : option User)
  : M W Empty_set :=
  let p := params module in
  match getattr_get user "userName" with
  | inl e => halt (uncaught e)
  | inr username =>
      r ← call (UpdateUser username (profile_of p))
             (client_update_user client username (profile_of p));
      match r with
      | inl e => halt (fail_json (replace_quotes e))
      | inr _ =>
          r ← (if my_user p
               then call GetMyUser (client_get_my_user client)
               else call (GetUser username)
                      (client_get_user client username));
          match r with
          | inl e => halt (fail_json (replace_quotes e))
          | inr user => halt (exit_json (Some true) (Some (DUser user)) None)
          end
      end
  end.

Definition update_user_roles (module : Module) : M W (option User) :=
  let p := params module in
  r ← call (SetUserRoles (username p) (roles p))
         (client_set_user_roles client (username p) (roles p));
  match r with
  | inl e => halt (fail_json (replace_quotes e))
  | inr _ =>
      r ← (if my_user p
           then call GetMyUser (client_get_my_user client)
           else call (GetUser (of_str (username p)))
                  (client_get_user client (of_str (username p))));
      match r with
      | inl e => halt (fail_json (replace_quotes e))
      | inr user => mret user
      end
  end.

Definition change_password (module : Module) (user : User) : M W unit :=
  let p := params module in
  r ← call (ChangeUserPassword (get user "userName") (new_password p))
         (client_change_user_password client (get user "userName")
            (new_password p));
  match r with
  | inl e => halt (fail_json (replace_quotes e))
  | inr _ => mret tt
  end.

Definition delete_user (module : Module) (username : option string)
  : M W Empty_set :=
  if is_None username then halt (fail_json "A valid username is required")
  else
    r ← call (RemoveUser username) (client_remove_user client username);
    match r with
    | inl e => halt (fail_json ("Failed to remove the user: " ++ e))
    | inr msg => halt (exit_json (Some true) None (Some msg))
    end.

Definition compare_user (module : Module) (user : option User)
    (full_compare : bool) : M W compare_result :=
  match candidate (params module) user full_compare with
  | inl e => halt (uncaught e)
  | inr new_user =>
      let compare_result := compare_json new_user user None in
      if check_mode module
      then halt (exit_json None (Some (DCompare compare_result)) None)
      else mret compare_result
  end.

Definition compare_user_roles (module : Module) (roles_ : value)
  : compare_result :=
  compare_json (Some {[ "role" := of_opt (roles (params module)) ]})
               (Some {[ "role" := roles_ ]}) None.
End Module.

(** ** [main] *)

(** What [main] obtains from [utils] and from the constructor of the
    client before it talks to the API. *)
Record Env := {
  (** [get_credentials(module)]: raises [ImportError], or returns the
      credentials, or [False]. *)
  get_credentials : string + option unit;
  (** [get_regions()] *)
  get_regions : list string;
  (** [NTTMCPClient(credentials, region)] raises with [e.msg], or not. *)
  client_init : option string
}.

(** [repr] of a list of plain strings. *)
Definition repr_list (l : list string) : string :=
  "[" ++ String.concat ", " (map (fun s => "'" ++ s ++ "'") l) ++ "]".

Section Main.
Context {W : Type} `{D : Diff} (env : Env) (client : Client W).

(** The search for the user, lines 525 to 532. *)
Definition search (p : Params) : M W (string + option User) :=
  if my_user p
  then call GetMyUser (client_get_my_user client)
  else call (GetUser (of_str (username p)))
         (client_get_user client (of_str (username p))).

(** The [else] branch of [state == 'present'], lines 541 to 554.  Every
    client call is wrapped by the function that makes it, so the
    [except NTTMCPAPIException] of this block has nothing to catch. *)
Definition converge (module : Module) (user : User) : M W Empty_set :=
  let p := params module in
  let changed := false in
  changed ← (if truthy (of_str (new_password p))
             then _ ← change_password client module user; mret true
             else mret changed);
  _ ← compare_user module (Some user) true;
  '(user, changed) ←
    (if changes (compare_user_roles module (get user "role"))
     then user ← update_user_roles client module; mret (user, true)
     else mret (Some user, changed));
  compare_result ← compare_user module user false;
  _ ← (if changes compare_result
       then update_user client module user
            ≫= (fun e : Empty_set => match e return M W unit with end)
       else mret tt);
  halt (exit_json (Some changed) (Some (DUser user)) None).

(** Lines 534 to 563: what is done with the user that was found. *)
Definition dispatch (module : Module) (user : option User)
  : M W Empty_set :=
  let username := username (params module) in
  match state (params module), user with
  | present, None =>
      if check_mode module
      then halt (exit_json None None
        (Some ("A new user with the username " ++ fmt username
               ++ " will be created")))
      else create_user client module
  | present, Some user => converge module user
  | absent, None => halt (exit_json None None (Some "User not found"))
  | absent, Some _ =>
      if check_mode module
      then halt (exit_json None None
        (Some ("An existing user was found for username "
               ++ fmt username ++ " and will be removed")))
      else delete_user client module username
  end.

Definition main (module : Module) : M W Empty_set :=
  let p := params module in
  match get_credentials env with
  | inl e => halt (fail_json e)
  | inr credentials =>
      if negb (bool_decide (region p ∈ get_regions env))
      then halt (fail_json ("Invalid region. Regions must be one of "
                            ++ repr_list (get_regions env)))
      else if is_None credentials
      then halt (fail_json "Could not load the user credentials")
      else
        match client_init env with
        | Some msg => halt (fail_json msg)
        | None =>
            r ← search p;
            match r with
            | inl e => halt (fail_json (replace_quotes e))
            | inr user => dispatch module user
            end
        end
  end.
End Main.

(** ** The Delta of [compare_json] *)

(** Modelled from the spec: the FieldSpec of the Delta computed by
    [compare_json] ([module_utils/utils.py] is not among the sources).
    How a field is compared. *)
Inductive comparison := DeepEqual | SetEqual | WriteOnly.

(** Modelled from the spec: the field-spec table of the missing
    [compare_json]: [role] is a set, the passwords are write-only. *)
Definition field_spec (k : string) : comparison :=
  if bool_decide (k = "role") then SetEqual
  else if bool_decide (k = "password") || bool_decide (k = "new_password")
  then WriteOnly
  else DeepEqual.

(** Modelled from the spec: structural set-equality, used by the missing
    [compare_json] for [role].  Two lists hold the same elements, whatever
    their order. *)
Definition same_set (l1 l2 : list atom) : bool :=
  forallb (fun x => bool_decide (x ∈ l2)) l1
  && forallb (fun x => bool_decide (x ∈ l1)) l2.

(** Modelled from the spec: the comparison of one field by the missing
    [compare_json].  Does field [k] differ between the new and the old
    record?  A field that is [None] on the new side is unset, not
    cleared. *)
Definition differs (k : string) (new old : option value) : bool :=
  match field_spec k, new, old with
  | WriteOnly, _, _ => false
  | _, None, None => false
  | _, Some PyNone, _ => false
  | SetEqual, Some (VList a), Some (VList b) => negb (same_set a b)
  | _, Some a, Some b => negb (bool_decide (a = b))
  | _, _, _ => true
  end.

Abbreviation Delta := (gmap string (option value * option value)).

(** Modelled from the spec: the Delta of the missing [compare_json], field
    name to (old, new) for the fields that differ. *)
Definition delta (a b : User) : Delta :=
  filter (fun kv => differs kv.1 (kv.2).2 (kv.2).1 = true)
    (merge (fun new old =>
              match new, old with
              | None, None => None
              | _, _ => Some (old, new)
              end) a b).

(** Modelled from the spec: [compare_json] of
    [plugins/module_utils/utils.py], which [user.py] imports and which is
    not among the sources.  The Delta maps a field name to its (old, new)
    pair for the fields that differ, and its flag [changes] says that the
    Delta is not empty.  [role] is compared as an unordered set, the
    write-only password fields are left out, every other field is compared
    by deep equality, and a field that the desired side leaves unset
    ([None]) never gets an entry.  An object that is [None] has no
    fields. *)
#[global] Instance spec_diff : Diff := {|
  compare_result := Delta;
  compare_json := fun a b _ => delta (default ∅ a) (default ∅ b);
  changes := fun d => negb (bool_decide (d = ∅))
|}.

(** ** A client over a single stored account *)

(** Enough of an API to run the module: the world is the account, if it
    exists.  Nothing below depends on it except the runs on concrete
    inputs. *)
Definition put_str (k : string) (o : option string) (u : User) : User :=
  match o with
  | Some s => <[k := PyStr s]> u
  | None => u
  end.

Definition put_profile (kw : profile) (u : User) : User :=
  let u := put_str "fullName" (kw_fullname kw) u in
  let u := put_str "firstName" (kw_firstname kw) u in
  let u := put_str "lastName" (kw_lastname kw) u in
  let u := put_str "emailAddress" (kw_email kw) u in
  let u := put_str "department" (kw_department kw) u in
  let u := put_str "customDefined1" (kw_custom_1 kw) u in
  let u := put_str "customDefined2" (kw_custom_2 kw) u in
  match kw_phone kw, kw_phone_country_code kw with
  | Some n, Some c =>
      <["phone" := VDict {[ "number" := AStr (str n);
                            "countryCode" := AStr (str c) ]}]> u
  | _, _ => u
  end.

Definition put_roles (rs : option value) (u : User) : User :=
  match rs with
  | Some r => <["role" := r]> u
  | None => u
  end.

Definition account_client : Client (option User) := {|
  client_get_user := fun _ w => (inr w, w);
  client_get_my_user := fun w => (inr w, w);
  client_create_user := fun name pw rs kw w =>
    match w with
    | Some _ => (inl "User already exists", w)
    | None =>
        (inr tt,
         Some (put_roles rs (put_profile kw {[ "userName" := of_str name ]})))
    end;
  client_update_user := fun _ kw w =>
    match w with
    | Some u => (inr tt, Some (put_profile kw u))
    | None => (inl "User not found", w)
    end;
  client_set_user_roles := fun _ rs w =>
    match w with
    | Some u => (inr tt, Some (put_roles rs u))
    | None => (inl "User not found", w)
    end;
  client_change_user_password := fun _ _ w =>
    match w with
    | Some _ => (inr tt, w)
    | None => (inl "User not found", w)
    end;
  client_remove_user := fun _ w =>
    match w with
    | Some _ => (inr "Request to Delete User has been accepted", None)
    | None => (inl "User not found", w)
    end
|}.

Definition start {W} (w : W) : run_state W := {| world := w; trace := [] |}.

Definition env_ok : Env := {|
  get_credentials := inr (Some tt);
  get_regions := ["na"; "eu"; "au"];
  client_init := None
|}.

(** Parameters that name a user and say nothing else. *)
Definition only_username (name : string) : Params := {|
  region := "na";
  username := Some name;
  my_user := false;
  password := None;
  new_password := None;
  roles := None;
  fullname := None;
  firstname := None;
  lastname := None;
  email := None;
  phone_country_code := None;
  phone := None;
  remove_phone := false;
  department := None;
  custom_1 := None;
  custom_2 := None;
  state := present
|}.

(** The observed user of the end-to-end example. *)
Definition joey : User :=
  {[ "userName" := PyStr "joey";
     "fullName" := PyStr "Joey Joe";
     "role" := VList [AStr "network"] ]}.

(** ** Vocabulary of the statements *)

(** The nested object that [new_user['phone']['number'] = ..] writes to. *)
Definition phone_base (d : User) : value :=
  if truthy (get d "phone") then get d "phone" else VDict ∅.

(** The decisions of the reconciler, read off the write calls. *)
Inductive decision :=
| Create (name pw : option string) (rs : option value) (payload : profile)
| UpdatePayload (payload : profile)
| UpdateRoles (rs : option value)
| ChangePassword (pw : option string)
| Delete.

Definition decision_of (c : api_call) : option decision :=
  match c with
  | CreateUser name pw rs kw => Some (Create name pw rs kw)
  | UpdateUser _ kw => Some (UpdatePayload kw)
  | SetUserRoles _ rs => Some (UpdateRoles rs)
  | ChangeUserPassword _ pw => Some (ChangePassword pw)
  | RemoveUser _ => Some Delete
  | GetUser _ | GetMyUser => None
  end.

(** The decision sequence of a trace; [[]] is NoOp. *)
Definition decisions (t : list api_call) : list decision := omap decision_of t.

(** The module got its credentials, a region it knows, and a client. *)
Definition preamble_ok (env : Env) (p : Params) : Prop :=
  get_credentials env = inr (Some tt)
  /\ region p ∈ get_regions env
  /\ client_init env = None.

(** The answer of the API to the search for the user. *)
Definition observe {W} (client : Client W) (p : Params) (w : W)
  : (string + option User) * W :=
  if my_user p then client_get_my_user client w
  else client_get_user client (of_str (username p)) w.

Definition search_call (p : Params) : api_call :=
  if my_user p then GetMyUser else GetUser (of_str (username p)).

(** What an outcome says, whatever the type of compare results. *)
Inductive report :=
| Exited (changed : option bool) (dat : option (option User))
         (msg : option string)
| Compared
| Failed (msg : string)
| Crashed (e : pyexn).

Definition report_of `{Diff} (o : outcome) : report :=
  match o with
  | exit_json c None msg => Exited c None msg
  | exit_json c (Some (DUser u)) msg => Exited c (Some u) msg
  | exit_json _ (Some (DCompare _)) _ => Compared
  | fail_json msg => Failed msg
  | uncaught e => Crashed e
  end.

(** The sequence a reconciliation draws its decisions from. *)
Definition update_plan (p : Params) : list decision :=
  [ChangePassword (new_password p); UpdateRoles (roles p);
   UpdatePayload (profile_of p)].

Definition create_plan (p : Params) : list decision :=
  [Create (username p) (password p) (roles p) (profile_of p)].

(** Desired state of the examples: a new password, one more role and a new
    full name for Joey. *)
Definition joey_desired : Params := {|
  region := "na";
  username := Some "joey";
  my_user := false;
  password := None;
  new_password := Some "x";
  roles := Some (VList [AStr "network"; AStr "server"]);
  fullname := Some "Joey JoeJoe";
  firstname := None;
  lastname := None;
  email := None;
  phone_country_code := None;
  phone := None;
  remove_phone := false;
  department := None;
  custom_1 := None;
  custom_2 := None;
  state := present
|}.

(** One of the six parameters a creation needs is [None] (line 290). *)
Definition missing_required (p : Params) : bool :=
  is_None (username p) || is_None (password p) || is_None (fullname p)
  || is_None (firstname p) || is_None (lastname p) || is_None (email p).

(** The parameters pass the three tests of [create_user], lines 290 to
    300. *)
Definition create_valid (p : Params) : bool :=
  negb (missing_required p)
  && negb (negb (is_None (phone p)) && is_None (phone_country_code p))
  && negb (negb (is_None (roles p)) && negb (is_list (of_opt (roles p)))).

(** A role list as the interface documents it: a list of strings. *)
Definition is_str (a : atom) : bool :=
  match a with AStr _ => true | _ => false end.

Definition list_of_strings (v : value) : bool :=
  match v with
  | VList l => forallb is_str l
  | _ => false
  end.

(** A complete request to create Joey, with roles that are numbers. *)
Definition joey_numbered : Params := {|
  region := "na";
  username := Some "joey";
  my_user := false;
  password := Some "secret";
  new_password := None;
  roles := Some (VList [AInt 1; AInt 2]);
  fullname := Some "Joey JoeJoe";
  firstname := Some "Joey";
  lastname := Some "JoeJoe";
  email := Some "joey.joejoe@abc.local";
  phone_country_code := None;
  phone := None;
  remove_phone := false;
  department := None;
  custom_1 := None;
  custom_2 := None;
  state := present
|}.

(** The overwrite of one key of a record that exists. *)
Definition put (k : string) (v : value) (d : User) : User :=
  if truthy v then <[k := v]> d else d.

(** The overwrites before and after the phone block. *)
Definition before_phone (p : Params) (full_compare : bool) (d : User) : User :=
  let d := put "fullName" (of_str (fullname p)) d in
  let d := put "lastName" (of_str (lastname p)) d in
  let d := put "firstName" (of_str (firstname p)) d in
  let d := put "emailAddress" (of_str (email p)) d in
  if full_compare then put "role" (of_opt (roles p)) d else d.

Definition after_phone (p : Params) (d : User) : User :=
  let d := put "department" (of_str (department p)) d in
  let d := put "customDefined1" (of_str (custom_1 p)) d in
  put "customDefined2" (of_str (custom_2 p)) d.

(** Does the candidate record write key [k]? *)
Definition touched (p : Params) (full_compare : bool) (k : string) : bool :=
  (bool_decide (k = "fullName") && truthy (of_str (fullname p)))
  || (bool_decide (k = "lastName") && truthy (of_str (lastname p)))
  || (bool_decide (k = "firstName") && truthy (of_str (firstname p)))
  || (bool_decide (k = "emailAddress") && truthy (of_str (email p)))
  || (bool_decide (k = "role") && full_compare && truthy (of_opt (roles p)))
  || (bool_decide (k = "phone")
      && (remove_phone p || truthy (of_int (phone p))
          || truthy (of_int (phone_country_code p))))
  || (bool_decide (k = "department") && truthy (of_str (department p)))
  || (bool_decide (k = "customDefined1") && truthy (of_str (custom_1 p)))
  || (bool_decide (k = "customDefined2") && truthy (of_str (custom_2 p))).

(** The optional fields of the desired state. *)
Inductive field :=
| Fullname | Lastname | Firstname | Email | Roles
| Phone | PhoneCountryCode | Department | Custom1 | Custom2.

(** The key of the user record a field is written to. *)
Definition key_of (f : field) : string :=
  match f with
  | Fullname => "fullName"
  | Lastname => "lastName"
  | Firstname => "firstName"
  | Email => "emailAddress"
  | Roles => "role"
  | Phone | PhoneCountryCode => "phone"
  | Department => "department"
  | Custom1 => "customDefined1"
  | Custom2 => "customDefined2"
  end.

(** The value the caller gave for a field, as [module.params.get] has it. *)
Definition desired (p : Params) (f : field) : value :=
  match f with
  | Fullname => of_str (fullname p)
  | Lastname => of_str (lastname p)
  | Firstname => of_str (firstname p)
  | Email => of_str (email p)
  | Roles => of_opt (roles p)
  | Phone => of_int (phone p)
  | PhoneCountryCode => of_int (phone_country_code p)
  | Department => of_str (department p)
  | Custom1 => of_str (custom_1 p)
  | Custom2 => of_str (custom_2 p)
  end.

(** An attribute of the nested phone object of a record. *)
Definition nested (sub : string) (u : User) : option atom :=
  match u !! "phone" with
  | Some (VDict m) => m !! sub
  | _ => None
  end.

(** The caller says nothing about the key of field [f]: the field is left
    out and, for the phone object, so are its sibling and the removal
    flag. *)
Definition left_out (p : Params) (f : field) : bool :=
  match f with
  | Phone | PhoneCountryCode =>
      is_None (phone p) && is_None (phone_country_code p)
      && negb (remove_phone p)
  | Fullname => is_None (fullname p)
  | Lastname => is_None (lastname p)
  | Firstname => is_None (firstname p)
  | Email => is_None (email p)
  | Roles => is_None (roles p)
  | Department => is_None (department p)
  | Custom1 => is_None (custom_1 p)
  | Custom2 => is_None (custom_2 p)
  end.

(** The observed phone entry is what the API documents: missing, empty,
    or an object. *)
Definition phone_is_object (u : User) : Prop :=
  truthy (get u "phone") = false \/ exists m, u !! "phone" = Some (VDict m).

(** The same parameters with other passwords. *)
Definition with_passwords (pw npw : option string) (p : Params) : Params := {|
  region := region p;
  username := username p;
  my_user := my_user p;
  password := pw;
  new_password := npw;
  roles := roles p;
  fullname := fullname p;
  firstname := firstname p;
  lastname := lastname p;
  email := email p;
  phone_country_code := phone_country_code p;
  phone := phone p;
  remove_phone := remove_phone p;
  department := department p;
  custom_1 := custom_1 p;
  custom_2 := custom_2 p;
  state := state p
|}.

Definition write_only : list string := ["password"; "new_password"].

(** The same parameters with another phone number and country code. *)
Definition with_phone (ph cc : option Z) (p : Params) : Params := {|
  region := region p;
  username := username p;
  my_user := my_user p;
  password := password p;
  new_password := new_password p;
  roles := roles p;
  fullname := fullname p;
  firstname := firstname p;
  lastname := lastname p;
  email := email p;
  phone_country_code := cc;
  phone := ph;
  remove_phone := remove_phone p;
  department := department p;
  custom_1 := custom_1 p;
  custom_2 := custom_2 p;
  state := state p
|}.

(** The nested object the candidate holds for a desired phone number:
    the number, and the country code when one is given, both as strings,
    written into the observed object. *)
Definition coerced_phone (p : Params) (m : gmap string atom) : value :=
  let m := <["number" := AStr (str (default 0%Z (phone p)))]> m in
  VDict (if truthy (of_int (phone_country_code p))
         then <["countryCode" :=
                 AStr (str (default 0%Z (phone_country_code p)))]> m
         else m).

(** A parameter, or [None] when its value is falsy. *)
Definition keep_str (o : option string) : option string :=
  if truthy (of_str o) then o else None.
Definition keep_int (o : option Z) : option Z :=
  if truthy (of_int o) then o else None.
Definition keep_val (o : option value) : option value :=
  if truthy (of_opt o) then o else None.

(** The parameters with every falsy optional field left out instead. *)
Definition forget_falsy (p : Params) : Params := {|
  region := region p;
  username := username p;
  my_user := my_user p;
  password := password p;
  new_password := new_password p;
  roles := keep_val (roles p);
  fullname := keep_str (fullname p);
  firstname := keep_str (firstname p);
  lastname := keep_str (lastname p);
  email := keep_str (email p);
  phone_country_code := keep_int (phone_country_code p);
  phone := keep_int (phone p);
  remove_phone := remove_phone p;
  department := keep_str (department p);
  custom_1 := keep_str (custom_1 p);
  custom_2 := keep_str (custom_2 p);
  state := state p
|}.

(** The value of field [f] is falsy and, for the phone object, so is its
    sibling, with the removal flag unset. *)
Definition falsy_field (p : Params) (f : field) : bool :=
  match f with
  | Phone | PhoneCountryCode =>
      negb (truthy (of_int (phone p)))
      && negb (truthy (of_int (phone_country_code p)))
      && negb (remove_phone p)
  | _ => negb (truthy (desired p f))
  end.

(** Joey, asked to have no role at all. *)
Definition joey_no_roles : Params := {|
  region := "na";
  username := Some "joey";
  my_user := false;
  password := None;
  new_password := None;
  roles := Some (VList []);
  fullname := None;
  firstname := None;
  lastname := None;
  email := None;
  phone_country_code := None;
  phone := None;
  remove_phone := false;
  department := None;
  custom_1 := None;
  custom_2 := None;
  state := present
|}.

(** What the record of the API holds for a field: the phone number and the
    country code are attributes of the nested phone object. *)
Definition held (f : field) (u : User) : option value :=
  match f with
  | Phone => (fun a => VAtom a) <$> nested "number" u
  | PhoneCountryCode => (fun a => VAtom a) <$> nested "countryCode" u
  | _ => u !! key_of f
  end.

(** What the caller asks the record to hold for a field, if anything: the
    phone number and the country code are held as strings. *)
Definition asked (p : Params) (f : field) : option value :=
  match f with
  | Fullname => (fun s => PyStr s) <$> fullname p
  | Lastname => (fun s => PyStr s) <$> lastname p
  | Firstname => (fun s => PyStr s) <$> firstname p
  | Email => (fun s => PyStr s) <$> email p
  | Roles => roles p
  | Phone => (fun z => PyStr (str z)) <$> phone p
  | PhoneCountryCode => (fun z => PyStr (str z)) <$> phone_country_code p
  | Department => (fun s => PyStr s) <$> department p
  | Custom1 => (fun s => PyStr s) <$> custom_1 p
  | Custom2 => (fun s => PyStr s) <$> custom_2 p
  end.

(** Every field that is present in the desired state equals the observed
    one; a removal of the phone is asked only where there is none. *)
Definition agrees (p : Params) (u : User) : Prop :=
  (forall f v, asked p f = Some v -> held f u = Some v)
  /\ (remove_phone p = true -> truthy (get u "phone") = false).

(** Joey as observed, asked for again. *)
Definition joey_again : Params := {|
  region := "na";
  username := Some "joey";
  my_user := false;
  password := None;
  new_password := None;
  roles := Some (VList [AStr "network"]);
  fullname := Some "Joey Joe";
  firstname := None;
  lastname := None;
  email := None;
  phone_country_code := None;
  phone := None;
  remove_phone := false;
  department := None;
  custom_1 := None;
  custom_2 := None;
  state := present
|}.

(** A user with an email address, named by a desired state that says
    nothing else. *)
Definition user_with_email : User :=
  {[ "userName" := PyStr "u"; "emailAddress" := PyStr "e@x.com" ]}.

(** Joey, asked to get a phone number. *)
Definition joey_phone : Params :=
  with_phone (Some 5555555555%Z) (Some 1%Z) (only_username "joey").

(** Joey, asked for an empty full name. *)
Definition joey_blank_name : Params := {|
  region := "na";
  username := Some "joey";
  my_user := false;
  password := None;
  new_password := None;
  roles := None;
  fullname := Some "";
  firstname := None;
  lastname := None;
  email := None;
  phone_country_code := None;
  phone := None;
  remove_phone := false;
  department := None;
  custom_1 := None;
  custom_2 := None;
  state := present
|}.

(** ** Vocabulary of the further properties *)

(** A client that refuses every password change and every change of
    roles, and otherwise behaves like [account_client]. *)
Definition refusing_client : Client (option User) := {|
  client_get_user := client_get_user account_client;
  client_get_my_user := client_get_my_user account_client;
  client_create_user := client_create_user account_client;
  client_update_user := client_update_user account_client;
  client_set_user_roles := fun _ _ w => (inl "denied", w);
  client_change_user_password := fun _ _ w => (inl "denied", w);
  client_remove_user := client_remove_user account_client
|}.

(** A request to remove Joey. *)
Definition joey_removed : Params := {|
  region := "na";
  username := Some "joey";
  my_user := false;
  password := None;
  new_password := None;
  roles := None;
  fullname := None;
  firstname := None;
  lastname := None;
  email := None;
  phone_country_code := None;
  phone := None;
  remove_phone := false;
  department := None;
  custom_1 := None;
  custom_2 := None;
  state := absent
|}.

(** Does a message hold a double quote? *)
Fixpoint has_dquote (s : string) : bool :=
  match s with
  | EmptyString => false
  | String c r => Ascii.eqb c dquote || has_dquote r
  end.

(** The calls that read a user. *)
Definition is_get_user (c : api_call) : bool :=
  match c with GetUser _ => true | _ => false end.

Definition is_get_my_user (c : api_call) : bool :=
  match c with GetMyUser => true | _ => false end.

(** The keys [compare_user] can write. *)
Definition written_keys : list string :=
  ["fullName"; "lastName"; "firstName"; "emailAddress"; "role"; "phone";
   "department"; "customDefined1"; "customDefined2"].

(** Does the desired state ask [compare_user] for anything? *)
Definition asks (p : Params) (full_compare : bool) : bool :=
  truthy (of_str (fullname p)) || truthy (of_str (lastname p))
  || truthy (of_str (firstname p)) || truthy (of_str (email p))
  || (full_compare && truthy (of_opt (roles p)))
  || remove_phone p || truthy (of_int (phone p))
  || truthy (of_int (phone_country_code p))
  || truthy (of_str (department p)) || truthy (of_str (custom_1 p))
  || truthy (of_str (custom_2 p)).

(** The observed phone entry is an object, or falsy. *)
Definition phone_object (u : User) : bool :=
  match get u "phone" with
  | VDict _ => true
  | v => negb (truthy v)
  end.

(** What the phone block makes of the phone entry of a record; [None] is
    no entry. *)
Definition phone_entry (p : Params) (o : option value)
  : raises (option value) :=
  if remove_phone p then inr (if truthy (of_opt o) then None else o)
  else
    o ← (if truthy (of_int (phone p)) then
           match (if truthy (of_opt o) then of_opt o else VDict ∅) with
           | VDict m =>
               inr (Some (VDict (<["number" :=
                                     AStr (str (default 0%Z (phone p)))]> m)))
           | _ => inl TypeError
           end
         else inr o);
    if truthy (of_int (phone_country_code p)) && truthy (of_opt o) then
      match of_opt o with
      | VDict m =>
          inr (Some (VDict (<["countryCode" :=
                     AStr (str (default 0%Z (phone_country_code p)))]> m)))
      | _ => inl TypeError
      end
    else inr o.

(** A user whose phone entry is a string. *)
Definition joey_flat_phone : User := <["phone" := PyStr "5551234"]> joey.

(** An environment in which a library the module needs is missing. *)
Definition env_no_library : Env := {|
  get_credentials := inl "Missing Python module: requests";
  get_regions := ["na"; "eu"; "au"];
  client_init := None
|}.

(** A client under which the account disappears while its roles are
    being set, and which otherwise behaves like [account_client]. *)
Definition vanishing_client : Client (option User) := {|
  client_get_user := client_get_user account_client;
  client_get_my_user := client_get_my_user account_client;
  client_create_user := client_create_user account_client;
  client_update_user := client_update_user account_client;
  client_set_user_roles := fun _ _ _ => (inr tt, None);
  client_change_user_password := client_change_user_password account_client;
  client_remove_user := client_remove_user account_client
|}.

(** One more role for Joey, and nothing else. *)
Definition joey_more_roles : Params := {|
  region := "na";
  username := Some "joey";
  my_user := false;
  password := None;
  new_password := None;
  roles := Some (VList [AStr "network"; AStr "server"]);
  fullname := None;
  firstname := None;
  lastname := None;
  email := None;
  phone_country_code := None;
  phone := None;
  remove_phone := false;
  department := None;
  custom_1 := None;
  custom_2 := None;
  state := present
|}.

(** The module got its credentials and a region it knows; the client is
    still to be made. *)
Definition credentials_ok (env : Env) (region : string) : Prop :=
  get_credentials env = inr (Some tt) /\ region ∈ get_regions env.

(** An environment in which the API refuses the credentials when the
    client is made. *)
Definition env_refused : Env := {|
  get_credentials := inr (Some tt);
  get_regions := ["na"; "eu"; "au"];
  client_init := Some "Invalid credentials"
|}.

(** * The information modules *)

(** An exception that leaves the module: a Python error, or an
    [NTTMCPAPIException] nothing catches. *)
Inductive crash :=
| Traceback (e : pyexn)
| Unhandled (msg : string).

(** [module.exit_json(data=return_data)], [module.fail_json(msg=..)], or
    a crash. *)
Inductive info_outcome (A : Type) :=
| info_exit (data : A)
| info_fail (msg : string)
| info_crash (c : crash).

Arguments info_exit {A}.
Arguments info_fail {A}.
Arguments info_crash {A}.

(** ** [user_info.py] *)

Module UserInfo.

Record Params := {
  region : string;
  my_user : bool;
  username : option string;
  firstname : option string;
  lastname : option string;
  email : option string;
  phone_country_code : option string;
  phone : option string;
  state : option string;
  department : option string
}.

(** Keyword arguments of [client.list_users]. *)
Record filters := {
  by_firstname : option string;
  by_lastname : option string;
  by_email : option string;
  by_phone_country_code : option string;
  by_phone : option string;
  by_state : option string;
  by_department : option string
}.

Definition filters_of (p : Params) : filters :=
  {| by_firstname := firstname p;
     by_lastname := lastname p;
     by_email := email p;
     by_phone_country_code := phone_country_code p;
     by_phone := phone p;
     by_state := state p;
     by_department := department p |}.

Inductive api_call :=
| GetMyUser
| GetUser (name : option string)
| ListUsers (f : filters).

(** A method returns, or raises one of the exceptions [main] catches
    ([KeyError], [IndexError], [AttributeError], [NTTMCPAPIException]);
    [inl s] carries [str(e)].  [list_users] may return [None]. *)
Record Client (W : Type) := {
  client_get_my_user : api W (option User);
  client_get_user : option string -> api W (option User);
  client_list_users : filters -> api W (option (list User))
}.

Arguments client_get_my_user {W}.
Arguments client_get_user {W}.
Arguments client_list_users {W}.

(** The two entries of [return_data] that [main] writes. *)
Record return_data := {
  count : nat;
  user : list User
}.

(** [return_data['user'].append(user)] when [user is not None] *)
Definition append_found (found : option User) (users : list User)
  : list User :=
  match found with
  | Some u => users ++ [u]
  | None => users
  end.

(** Lines 263 to 282.  [return_object] is the list that
    [return_object('user')] of [utils] puts under ['user']. *)
Definition lookup {W} (return_object : list User) (client : Client W)
    (p : Params) (w : W)
  : info_outcome return_data * W * list api_call :=
  let failed (e : string) :=
    info_fail ("Could not retrieve a list of users - " ++ e) in
  let exited (users : list User) :=
    info_exit {| count := length users; user := users |} in
  if my_user p then
    match client_get_my_user client w with
    | (inl e, w) => (failed e, w, [GetMyUser])
    | (inr found, w) =>
        (exited (append_found found return_object), w, [GetMyUser])
    end
  else if negb (is_None (username p)) then
    match client_get_user client (username p) w with
    | (inl e, w) => (failed e, w, [GetUser (username p)])
    | (inr found, w) =>
        (exited (append_found found return_object), w,
         [GetUser (username p)])
    end
  else
    match client_list_users client (filters_of p) w with
    | (inl e, w) => (failed e, w, [ListUsers (filters_of p)])
    | (inr None, w) =>
        (info_crash (Traceback TypeError), w, [ListUsers (filters_of p)])
    | (inr (Some users), w) => (exited users, w, [ListUsers (filters_of p)])
    end.

Definition main {W} (env : Env) (return_object : list User)
    (client : Client W) (p : Params) (w : W)
  : info_outcome return_data * W * list api_call :=
  match get_credentials env with
  | inl e => (info_fail e, w, [])
  | inr credentials =>
      if negb (bool_decide (region p ∈ get_regions env))
      then (info_fail ("Invalid region. Regions must be one of "
                       ++ repr_list (get_regions env)), w, [])
      else if is_None credentials
      then (info_fail "Could not load the user credentials", w, [])
      else
        match client_init env with
        | Some msg => (info_fail msg, w, [])
        | None => lookup return_object client p w
        end
  end.

End UserInfo.

(** ** [geo_info.py] *)

Module GeoInfo.
Section GeoInfo.
Context {J W : Type}.

Record Params := {
region : string;
id : option string;
name : option string;
is_home : bool
}.

(** A Python dict whose values may be [None]. *)
Definition pydict : Type := gmap string (option J).

(** [d.get(k)] *)
Definition dict_get (d : pydict) (k : string) : option J := mjoin (d !! k).

Inductive api_call :=
| GetGeo (geo_id geo_name : option string) (home : bool).

(** [client.get_geo] returns a dict or [None], or raises
  [NTTMCPAPIException]. *)
Definition Client : Type :=
option string -> option string -> bool -> api W (option pydict).

(** [return_object] is the dict [return_object('geo')] of [utils]. *)
Definition get_geo (return_object : pydict) (client : Client) (p : Params)
  (w : W) : info_outcome pydict * W * list api_call :=
let return_data := return_object in
let geo_id := id p in
let geo_name := name p in
let home := is_home p in
match client geo_id geo_name home w with
| (inl exc, w) =>
    (info_fail ("Could not get a list of Geos - " ++ exc), w,
     [GetGeo geo_id geo_name home])
| (inr None, w) =>
    (info_crash (Traceback AttributeError), w,
     [GetGeo geo_id geo_name home])
| (inr (Some result), w) =>
    let return_data :=
      <["count" := dict_get result "totalCount"]> return_data in
    let return_data :=
      <["geo" := dict_get result "geographicRegion"]> return_data in
    (info_exit return_data, w, [GetGeo geo_id geo_name home])
end.

(** The constructor of the client is not inside a [try]. *)
Definition main (env : Env) (return_object : pydict) (client : Client)
  (p : Params) (w : W) : info_outcome pydict * W * list api_call :=
match get_credentials env with
| inl e => (info_fail e, w, [])
| inr credentials =>
    if negb (bool_decide (region p ∈ get_regions env))
    then (info_fail ("Invalid region. Regions must be one of "
                     ++ repr_list (get_regions env)), w, [])
    else if is_None credentials
    then (info_fail "Could not load the user credentials", w, [])
    else
      match client_init env with
      | Some msg => (info_crash (Unhandled msg), w, [])
      | None => get_geo return_object client p w
      end
end.

End GeoInfo.
End GeoInfo.

(** ** [vip_function_info.py] *)

Module VipFunctionInfo.
Section VipFunctionInfo.
Context {J W : Type}.

Record Params := {
region : string;
datacenter : string;
network_domain : string;
type : string
}.

Definition pydict : Type := gmap string (option J).

(** [d.get(k)] *)
Definition dict_get (d : pydict) (k : string) : option J := mjoin (d !! k).

(** What a method of the client, or the module itself, can raise.  Only
  [NTTMCPAPIException] has an attribute [msg]. *)
Inductive raised :=
| NTTMCPAPIException (msg : string)
| KeyError
| IndexError
| AttributeError
| TypeError.

Definition method (A : Type) : Type := W -> (raised + A) * W.

Inductive api_call :=
| GetNetworkDomainByName (name dc : string)
| ListVipFunction (network_domain_id : option J) (function_type : string).

Record Client := {
client_get_network_domain_by_name :
  string -> string -> method (option pydict);
client_list_vip_function :
  option J -> string -> method (option (list J))
}.

(** The two entries of [return_data] that [main] writes. *)
Record return_data := {
count : nat;
vip_function : list J
}.

Inductive outcome :=
| exit_json (data : return_data)
| fail_json (msg : string)
| uncaught (e : raised).

(** Lines 216 and 217: [except (KeyError, IndexError,
  NTTMCPAPIException)]. *)
Definition caught_by_lookup (e : raised) : bool :=
match e with
| NTTMCPAPIException _ | KeyError | IndexError => true
| AttributeError | TypeError => false
end.

(** Lines 224 and 225: the handler formats [e.msg]; an exception without
  that attribute raises [AttributeError] there. *)
Definition list_failed (function_type : string) (e : raised) : outcome :=
match e with
| NTTMCPAPIException msg =>
    fail_json ("Could not find any VIP Functions of type "
               ++ function_type ++ ": " ++ msg)
| _ => uncaught AttributeError
end.

(** Lines 219 to 225, with the id of the network domain. *)
Definition list_functions (client : Client) (p : Params)
  (network_domain_id : option J) (w : W) (t : list api_call)
: outcome * W * list api_call :=
let function_type := type p in
let c := ListVipFunction network_domain_id function_type in
match client_list_vip_function client network_domain_id function_type w with
| (inl e, w) => (list_failed function_type e, w, (t ++ [c])%list)
| (inr None, w) => (list_failed function_type TypeError, w, (t ++ [c])%list)
| (inr (Some l), w) =>
    (exit_json {| count := length l; vip_function := l |}, w, (t ++ [c])%list)
end.

(** Lines 212 to 225. *)
Definition find (client : Client) (p : Params) (w : W)
: outcome * W * list api_call :=
let network_domain_name := network_domain p in
let c := GetNetworkDomainByName network_domain_name (datacenter p) in
match client_get_network_domain_by_name client network_domain_name
        (datacenter p) w with
| (inl e, w) =>
    (if caught_by_lookup e
     then fail_json ("Could not find the Cloud Network Domain: "
                     ++ network_domain_name)
     else uncaught e, w, [c])
| (inr None, w) => (uncaught AttributeError, w, [c])
| (inr (Some network), w) =>
    list_functions client p (dict_get network "id") w [c]
end.

Definition main (env : Env) (client : Client) (p : Params) (w : W)
: outcome * W * list api_call :=
match get_credentials env with
| inl e => (fail_json e, w, [])
| inr credentials =>
    if negb (bool_decide (region p ∈ get_regions env))
    then (fail_json ("Invalid region. Regions must be one of "
                     ++ repr_list (get_regions env)), w, [])
    else if is_None credentials
    then (fail_json "Could not load the user credentials", w, [])
    else
      match client_init env with
      | Some msg => (fail_json msg, w, [])
      | None => find client p w
      end
end.

End VipFunctionInfo.
End VipFunctionInfo.

(** ** Requests and clients of the examples *)

Definition everybody : UserInfo.Params := {|
  UserInfo.region := "na";
  UserInfo.my_user := false;
  UserInfo.username := None;
  UserInfo.firstname := None;
  UserInfo.lastname := None;
  UserInfo.email := None;
  UserInfo.phone_country_code := None;
  UserInfo.phone := None;
  UserInfo.state := None;
  UserInfo.department := None
|}.

(** A directory that holds the users of its world and applies no
    filter. *)
Definition directory : UserInfo.Client (list User) := {|
  UserInfo.client_get_my_user := fun w => (inr (head w), w);
  UserInfo.client_get_user := fun name w =>
    (inr (head (filter (fun u => get u "userName" = of_str name) w)), w);
  UserInfo.client_list_users := fun _ w => (inr (Some w), w)
|}.

Definition home_geo : GeoInfo.Params := {|
  GeoInfo.region := "na";
  GeoInfo.id := None;
  GeoInfo.name := None;
  GeoInfo.is_home := true
|}.

(** An API whose answer has no entry at all. *)
Definition empty_geo : GeoInfo.Client (J := value) (W := unit) :=
  fun _ _ _ w => (inr (Some ∅), w).

Definition monitors : VipFunctionInfo.Params := {|
  VipFunctionInfo.region := "na";
  VipFunctionInfo.datacenter := "NA9";
  VipFunctionInfo.network_domain := "my_cnd";
  VipFunctionInfo.type := "health_monitor"
|}.

(** An API that finds the network domain and raises [KeyError] while it
    lists the functions. *)
Definition broken_listing : VipFunctionInfo.Client (J := value) (W := unit) :=
  {| VipFunctionInfo.client_get_network_domain_by_name := fun _ _ w =>
       (inr (Some {[ "id" := Some (PyStr "b2fbd7e6") ]}), w);
     VipFunctionInfo.client_list_vip_function := fun _ _ w =>
       (inl VipFunctionInfo.KeyError, w) |}.

(** * Properties *)

(** ** The Delta *)

Lemma differs_None k : differs k None None = false.
Proof. unfold differs. by destruct (field_spec k). Qed.

Lemma delta_lookup (a b : User) (k : string) :
  delta a b !! k
  = if differs k (a !! k) (b !! k) then Some (b !! k, a !! k) else None.
Proof.
  unfold delta. rewrite map_lookup_filter, lookup_merge.
  destruct (a !! k) as [x|] eqn:Ha, (b !! k) as [y|] eqn:Hb; simpl.
  4: by rewrite differs_None.
  all: by destruct (differs k _ _) eqn:E; simpl.
Qed.

Lemma same_set_true (l1 l2 : list atom) :
  (forall x, x ∈ l1 <-> x ∈ l2) -> same_set l1 l2 = true.
Proof.
  intros H. unfold same_set. apply andb_true_iff.
  split; apply forallb_forall; intros x Hx; apply bool_decide_eq_true;
    apply H; by apply list_elem_of_In.
Qed.

Lemma differs_same k x : differs k x x = false.
Proof.
  unfold differs. destruct (field_spec k), x as [[[]|l|d]|]; try done.
  all: try (by rewrite bool_decide_eq_true_2).
  by rewrite same_set_true.
Qed.

Lemma differs_unset k old : differs k (Some PyNone) old = false.
Proof. unfold differs. by destruct (field_spec k), old. Qed.

Lemma delta_lookup_same (a b : User) k :
  a !! k = b !! k -> delta a b !! k = None.
Proof. intros E. by rewrite delta_lookup, E, differs_same. Qed.

Lemma delta_same (a : User) : delta a a = ∅.
Proof. apply map_eq. intros k. by rewrite lookup_empty, delta_lookup_same. Qed.

(** The Delta of two one-field records. *)
Lemma delta_singleton (k : string) (new old : value) :
  differs k (Some new) (Some old) = false ->
  delta {[ k := new ]} {[ k := old ]} = ∅.
Proof.
  intros E. apply map_eq. intros j. rewrite lookup_empty, delta_lookup.
  destruct (decide (k = j)) as [<-|Hne].
  - by rewrite !lookup_singleton_eq, E.
  - by rewrite !lookup_singleton_ne, differs_None.
Qed.

Lemma differs_role_lists (l1 l2 : list atom) :
  differs "role" (Some (VList l1)) (Some (VList l2)) = negb (same_set l1 l2).
Proof. reflexivity. Qed.

(** ** The candidate merged record *)

Lemma overwrite_Some k v (d : User) :
  overwrite k v (Some d) = inr (Some (if truthy v then <[k := v]> d else d)).
Proof. unfold overwrite. by destruct (truthy v). Qed.

Lemma truthy_get_Some (d : User) k :
  truthy (get d k) = true -> exists v, d !! k = Some v /\ get d k = v.
Proof. unfold get. destruct (d !! k); simpl; [eauto | done]. Qed.

Lemma drop_phone_Some (d : User) :
  drop_phone (Some d)
  = inr (Some (if truthy (get d "phone") then delete "phone" d else d)).
Proof.
  unfold drop_phone, pop. simpl.
  destruct (truthy (get d "phone")) eqn:T; [|done].
  by apply truthy_get_Some in T as (v & -> & _).
Qed.

Lemma set_number_Some p (d : User) :
  set_number p (Some d)
  = if truthy (of_int (phone p)) then
      match phone_base d with
      | VDict m =>
          inr (Some (<["phone" :=
                        VDict (<["number" :=
                                  AStr (str (default 0%Z (phone p)))]> m)]> d))
      | _ => inl TypeError
      end
    else inr (Some d).
Proof.
  unfold set_number, phone_base. destruct (truthy (of_int (phone p))); [|done].
  simpl. destruct (truthy (get d "phone")) eqn:T; simpl.
  - apply truthy_get_Some in T as (v & E & ->). unfold setitem2. rewrite E.
    by destruct v.
  - unfold setitem2. rewrite lookup_insert_eq. by rewrite insert_insert_eq.
Qed.

Lemma set_country_code_Some p (d : User) :
  set_country_code p (Some d)
  = if truthy (of_int (phone_country_code p)) && truthy (get d "phone") then
      match get d "phone" with
      | VDict m =>
          inr (Some (<["phone" :=
                        VDict (<["countryCode" :=
                          AStr (str (default 0%Z (phone_country_code p)))]> m)]>
                       d))
      | _ => inl TypeError
      end
    else inr (Some d).
Proof.
  unfold set_country_code.
  destruct (truthy (of_int (phone_country_code p))); [|done].
  simpl. destruct (truthy (get d "phone")) eqn:T; [|done].
  apply truthy_get_Some in T as (v & E & ->). unfold setitem2. rewrite E.
  by destruct v.
Qed.

(** The phone block returns a record, and leaves every other key alone. *)
Lemma candidate_phone_frame p (d : User) r :
  candidate_phone p (Some d) = inr r ->
  exists d', r = Some d' /\ forall k, k ≠ "phone" -> d' !! k = d !! k.
Proof.
  unfold candidate_phone. destruct (remove_phone p).
  - rewrite drop_phone_Some. intros [= <-]. eexists; split; [done|].
    intros k Hk. destruct (truthy _); [by rewrite lookup_delete_ne | done].
  - rewrite set_number_Some.
    destruct (truthy (of_int (phone p))); [destruct (phone_base d); try done|];
      simpl; rewrite set_country_code_Some;
      (destruct (_ && _); [destruct (get _ "phone"); try done|]);
      intros [= <-]; eexists; (split; [done|]); intros k Hk;
      by rewrite ?lookup_insert_ne.
Qed.

(** With nothing asked about the phone, the block is the identity. *)
Lemma candidate_phone_untouched p (o : option User) :
  remove_phone p = false ->
  truthy (of_int (phone p)) = false ->
  truthy (of_int (phone_country_code p)) = false ->
  candidate_phone p o = inr o.
Proof.
  unfold candidate_phone, set_number, set_country_code.
  by intros -> -> ->.
Qed.

(** ** Runs of the module *)

Ltac unfold_run :=
  unfold finish, dispatch, converge, create_user, delete_user,
    change_password, compare_user, update_user_roles, update_user, search;
  unfold mbind, M_bind, mret, M_ret, bind, ret, halt, call.

(** One case split on what the client answers or on a test of the code. *)
Ltac step :=
  match goal with
  | |- context [client_get_user ?c ?a ?w] =>
      destruct (client_get_user c a w) as [[?|?] ?]
  | |- context [client_get_my_user ?c ?w] =>
      destruct (client_get_my_user c w) as [[?|?] ?]
  | |- context [client_create_user ?c ?a ?b ?r ?k ?w] =>
      destruct (client_create_user c a b r k w) as [[?|?] ?]
  | |- context [client_update_user ?c ?a ?k ?w] =>
      destruct (client_update_user c a k w) as [[?|?] ?]
  | |- context [client_set_user_roles ?c ?a ?r ?w] =>
      destruct (client_set_user_roles c a r w) as [[?|?] ?]
  | |- context [client_change_user_password ?c ?a ?b ?w] =>
      destruct (client_change_user_password c a b w) as [[?|?] ?]
  | |- context [client_remove_user ?c ?a ?w] =>
      destruct (client_remove_user c a w) as [[?|?] ?]
  | |- context [match candidate ?p ?u ?f with _ => _ end] =>
      destruct (candidate p u f) as [?|?] eqn:?
  | |- context [match getattr_get ?u ?k with _ => _ end] =>
      destruct (getattr_get u k) as [?|?] eqn:?
  | |- context [match ?o with Some _ => _ | None => _ end] =>
      is_var o; destruct o
  | |- context [if ?b then _ else _] => destruct b eqn:?
  end; simpl.

Ltac explore := unfold_run; simpl; repeat step.

(** The calls a run appended to the trace it started from. *)
Ltac appended :=
  eexists;
  (split; [first [symmetry; apply app_nil_r
                 | rewrite <- ?app_assoc; reflexivity] |]);
  simpl.

Section Runs.
Context {W : Type} `{D : Diff} (client : Client W).

(** Whatever the client answers and whatever [compare_json] reports, a
    reconciliation issues a subsequence of: password, roles, payload. *)
Lemma converge_calls (m : Module) (u : User) (s : run_state W) :
  exists calls,
    trace (finish (converge client m u) s).2 = (trace s ++ calls)%list
    /\ decisions calls `sublist_of` update_plan (params m).
Proof. explore; appended; repeat constructor. Qed.

Lemma create_user_calls (m : Module) (s : run_state W) :
  exists calls,
    trace (finish (create_user client m) s).2 = (trace s ++ calls)%list
    /\ decisions calls `sublist_of` create_plan (params m).
Proof. explore; appended; repeat constructor. Qed.

(** Parameters that pass the validation are sent to the API. *)
Lemma create_user_valid (m : Module) (s : run_state W) :
  create_valid (params m) = true ->
  exists calls,
    trace (finish (create_user client m) s).2 = (trace s ++ calls)%list
    /\ decisions calls = create_plan (params m).
Proof.
  unfold create_valid. intros [[H1 H2]%andb_true_iff H3]%andb_true_iff.
  apply negb_true_iff in H1, H2, H3.
  unfold create_user. fold (missing_required (params m)).
  rewrite H1, H2, H3. explore; by appended.
Qed.

Lemma search_run (p : Params) (s : run_state W) :
  search client p s
  = (Ret (observe client p (world s)).1,
     {| world := (observe client p (world s)).2;
        trace := trace s ++ [search_call p] |}).
Proof.
  unfold search, observe, search_call, call.
  destruct (my_user p).
  - by destruct (client_get_my_user client (world s)).
  - by destruct (client_get_user client _ (world s)).
Qed.

Lemma main_run (env : Env) (m : Module) (w : W) :
  preamble_ok env (params m) ->
  finish (main env client m) (start w)
  = match (observe client (params m) w).1 with
    | inl e => (fail_json (replace_quotes e),
                {| world := (observe client (params m) w).2;
                   trace := [search_call (params m)] |})
    | inr found =>
        finish (dispatch client m found)
          {| world := (observe client (params m) w).2;
             trace := [search_call (params m)] |}
    end.
Proof.
  intros (Hc & Hr & Hi). unfold main, finish. rewrite Hc, Hi.
  rewrite (bool_decide_eq_true_2 _ Hr). simpl.
  unfold mbind, M_bind, bind. rewrite search_run. simpl.
  by destruct (observe client (params m) w).1.
Qed.
End Runs.

(** ** Order of the decisions *)

Lemma sublist_of_three {A} (a b c : A) (l : list A) :
  l `sublist_of` [a; b; c] ->
  l ∈ [[a; b; c]; [a; b]; [a; c]; [a]; [b; c]; [b]; [c]; []].
Proof.
  intros H.
  repeat match goal with
         | H : _ `sublist_of` (_ :: _) |- _ => inversion H; clear H; subst
         | H : _ `sublist_of` [] |- _ => inversion H; clear H; subst
         end; set_solver.
Qed.

(** C7. In every reconciliation of an existing user the write calls are a
    subsequence of: change the password, set the roles, update the
    profile fields; each is issued at most once and in this order.  In
    particular a role update always comes before a payload update. *)
Theorem decisions_in_fixed_order {W} `{D : Diff} (client : Client W)
    (m : Module) (u : User) (w : W) :
  let ds := decisions (trace (finish (converge client m u) (start w)).2) in
  ds `sublist_of` [ChangePassword (new_password (params m));
                   UpdateRoles (roles (params m));
                   UpdatePayload (profile_of (params m))]
  /\ (forall i j rs kw,
        ds !! i = Some (UpdateRoles rs) -> ds !! j = Some (UpdatePayload kw) ->
        i < j)
  /\ (forall i j pw rs,
        ds !! i = Some (ChangePassword pw) -> ds !! j = Some (UpdateRoles rs) ->
        i < j)
  /\ (forall i j pw kw,
        ds !! i = Some (ChangePassword pw) ->
        ds !! j = Some (UpdatePayload kw) -> i < j).
Proof.
  intros ds.
  assert (Hs : ds `sublist_of` update_plan (params m)).
  { destruct (converge_calls client m u (start w)) as (calls & E & Hs).
    subst ds. by rewrite E. }
  split; [exact Hs|].
  apply sublist_of_three in Hs.
  repeat (apply elem_of_cons in Hs as [-> | Hs]); [..|by apply elem_of_nil in Hs].
  all: repeat split; intros i j ? ?;
    destruct i as [|[|[|i]]], j as [|[|[|j]]]; simpl; intros; simplify_eq; lia.
Qed.

(** The end-to-end example: Joey gets a password, a role and a name. *)
Example joey_converges :
  let r := finish (main env_ok account_client
                     {| params := joey_desired; check_mode := false |})
             (start (Some joey)) in
  decisions (trace r.2) = update_plan joey_desired
  /\ report_of r.1
     = Exited (Some true)
         (Some (Some (<["fullName" := PyStr "Joey JoeJoe"]>
                        (<["role" := VList [AStr "network"; AStr "server"]]>
                           joey))))
         None.
Proof. vm_compute. split; reflexivity. Qed.

(** ** Check mode *)

(** C2, at the failing input.  With [new_password] set and an existing
    user, a run in check mode calls [change_user_password] before
    [compare_user] reaches the check-mode exit: the password is changed
    although nothing should be applied. *)
Theorem check_mode_changes_password :
  let r := finish (main env_ok account_client
                     {| params := joey_desired; check_mode := true |})
             (start (Some joey)) in
  trace r.2 = [GetUser (PyStr "joey");
               ChangeUserPassword (PyStr "joey") (Some "x")]
  /\ existsb is_write (trace r.2) = true
  /\ report_of r.1 = Compared.
Proof. vm_compute. repeat split; reflexivity. Qed.

(** The decisions of a trace are its write calls. *)
Lemma decision_of_write (c : api_call) :
  is_write c = true <-> is_Some (decision_of c).
Proof. destruct c; simpl; split; intros H; try done; by inversion H. Qed.

(** Apart from that password change, check mode writes nothing. *)
Lemma check_mode_only_password {W} `{D : Diff} (env : Env)
    (client : Client W) (m : Module) (w : W) :
  check_mode m = true ->
  decisions (trace (finish (main env client m) (start w)).2)
    `sublist_of` [ChangePassword (new_password (params m))].
Proof.
  intros Hc. unfold main. unfold_run. rewrite Hc. simpl.
  destruct (get_credentials env) as [?|[]]; simpl;
    destruct (bool_decide (region (params m) ∈ get_regions env)); simpl;
    destruct (client_init env); simpl;
    destruct (state (params m)); repeat step; repeat constructor.
Qed.

(** ** Create or update *)

Lemma decisions_after_search (p : Params) (calls : list api_call) :
  decisions ([search_call p] ++ calls) = decisions calls.
Proof. unfold search_call. by destruct (my_user p). Qed.

(** C3. With [state=present], once the module has its client: when the
    search finds no user the module takes the create path (in check mode
    it only says so), the only decision it can issue is Create with the
    parameters as payload, which it does issue when they pass the
    validation of [create_user], and [compare_json] has no part in the
    run: the trace and what is reported are the same for any two versions
    of it, and no compare result is reported.  When the search finds a user the
    run is the reconciliation, whose decisions are drawn from
    ChangePassword, UpdateRoles and UpdatePayload: never Create. *)
Theorem present_creates_or_updates {W} (D1 D2 : Diff) (env : Env)
    (client : Client W) (m : Module) (w : W) (found : option User) :
  state (params m) = present ->
  preamble_ok env (params m) ->
  (observe client (params m) w).1 = inr found ->
  let s1 := {| world := (observe client (params m) w).2;
               trace := [search_call (params m)] |} in
  let r := finish (D := D1) (main env client m) (start w) in
  let r' := finish (D := D2) (main env client m) (start w) in
  match found with
  | None =>
      (if check_mode m
       then r = (exit_json None None
                   (Some ("A new user with the username "
                          ++ fmt (username (params m))
                          ++ " will be created")), s1)
       else r = finish (create_user client m) s1)
      /\ decisions (trace r.2)
           `sublist_of` [Create (username (params m)) (password (params m))
                           (roles (params m)) (profile_of (params m))]
      /\ (check_mode m = false -> create_valid (params m) = true ->
          decisions (trace r.2)
          = [Create (username (params m)) (password (params m))
               (roles (params m)) (profile_of (params m))])
      /\ trace r.2 = trace r'.2
      /\ report_of r.1 = report_of r'.1
      /\ report_of r.1 <> Compared
  | Some u =>
      r = finish (converge client m u) s1
      /\ decisions (trace r.2)
           `sublist_of` [ChangePassword (new_password (params m));
                         UpdateRoles (roles (params m));
                         UpdatePayload (profile_of (params m))]
      /\ (forall d, d ∈ decisions (trace r.2) ->
            d = ChangePassword (new_password (params m))
            \/ d = UpdateRoles (roles (params m))
            \/ d = UpdatePayload (profile_of (params m)))
  end.
Proof.
  intros Hst Hpre Hobs s1 r r'. subst r r'.
  rewrite !main_run by done. rewrite Hobs. fold s1.
  unfold dispatch. rewrite Hst. destruct found as [u|].
  - split; [done|].
    destruct (converge_calls (D := D1) client m u s1) as (calls & E & Hs).
    rewrite E. simpl trace. rewrite decisions_after_search.
    split; [exact Hs|].
    intros d Hd. eapply elem_of_sublist in Hd; [|exact Hs].
    unfold update_plan in Hd.
    repeat (apply elem_of_cons in Hd as [-> | Hd]); eauto.
    by apply elem_of_nil in Hd.
  - destruct (check_mode m) eqn:Hc.
    + unfold finish, halt. simpl.
      pose proof (decisions_after_search (params m) []) as E.
      simpl in E. rewrite E.
      repeat split; try done. repeat constructor.
    + split; [done|]. split; [|split].
      * destruct (create_user_calls (D := D1) client m s1) as (calls & E & Hs).
        rewrite E. simpl trace. by rewrite decisions_after_search.
      * intros _ Hv.
        destruct (create_user_valid (D := D1) client m s1 Hv)
          as (calls & E & Hs).
        rewrite E. simpl trace. by rewrite decisions_after_search.
      * subst s1. explore; repeat split; done.
Qed.

(** ** Input validation *)

(** C8, as amended.  [create_user] fails at once, before any call to the
    client, when one of username, password, fullname, firstname, lastname
    and email is missing or when [roles] is given and is not a list; and
    [delete_user] fails at once, before any call, without a username.  A
    run of [main] that reaches [create_user] with such an input has made
    the search for the user and no other call. *)
Theorem invalid_input_fails_before_any_call {W} `{D : Diff}
    (client : Client W) (m : Module) (s : run_state W) :
  (missing_required (params m) = true
   \/ exists v, roles (params m) = Some v /\ is_list v = false) ->
  (exists msg, finish (create_user client m) s = (fail_json msg, s))
  /\ finish (delete_user client m None) s
     = (fail_json "A valid username is required", s)
  /\ (forall env w,
        preamble_ok env (params m) -> state (params m) = present ->
        check_mode m = false ->
        (observe client (params m) w).1 = inr None ->
        let r := finish (main env client m) (start w) in
        (exists msg, r.1 = fail_json msg)
        /\ trace r.2 = [search_call (params m)]).
Proof.
  intros H.
  assert (Hc : forall s, exists msg,
             finish (create_user client m) s = (fail_json msg, s)).
  { intros s'. unfold create_user, finish, halt.
    fold (missing_required (params m)).
    destruct (missing_required (params m)); [by eexists|].
    destruct H as [H|(v & Hv & Hl)]; [done|].
    destruct (_ && _); [by eexists|].
    rewrite Hv. simpl. rewrite Hl. simpl. by eexists. }
  split; [apply Hc|]. split; [done|].
  intros env w Hpre Hst Hchk Hobs r. subst r.
  rewrite main_run, Hobs by done. unfold dispatch. rewrite Hst, Hchk.
  destruct (Hc {| world := (observe client (params m) w).2;
                  trace := [search_call (params m)] |}) as (msg & ->).
  split; [by eexists | done].
Qed.

(** C8 fails as stated: a role list that is not a list of strings passes
    the validation of [create_user], which goes on to call the API. *)
Lemma numbered_roles_are_created :
  (exists v, roles joey_numbered = Some v /\ list_of_strings v = false)
  /\ let r := finish (create_user account_client
                        {| params := joey_numbered; check_mode := false |})
                (start None) in
     decisions (trace r.2) = create_plan joey_numbered
     /\ forall msg, report_of r.1 <> Failed msg.
Proof.
  split; [by eexists|]. vm_compute. split; [reflexivity|]. intros msg [=].
Qed.

(** ** The candidate record, key by key *)

Lemma lookup_put k v (d : User) j :
  put k v d !! j = if truthy v && bool_decide (k = j) then Some v else d !! j.
Proof.
  unfold put. destruct (truthy v); simpl; [|done].
  case_bool_decide as E; [subst; apply lookup_insert_eq|].
  by apply lookup_insert_ne.
Qed.

Lemma overwrite_put k v (d : User) : overwrite k v (Some d) = inr (Some (put k v d)).
Proof. apply overwrite_Some. Qed.

Lemma raises_bind_inr {A B} (a : A) (f : A -> raises B) : (inr a ≫= f) = f a.
Proof. reflexivity. Qed.

Lemma candidate_Some p (u : User) full :
  candidate p (Some u) full
  = match candidate_phone p (Some (before_phone p full u)) with
    | inr (Some d) => inr (Some (after_phone p d))
    | inr None => inl TypeError
    | inl e => inl e
    end.
Proof.
  unfold candidate, before_phone, after_phone.
  repeat (rewrite overwrite_put, raises_bind_inr).
  destruct full.
  - rewrite overwrite_put, raises_bind_inr.
    destruct (candidate_phone _ _) as [e|[d|]] eqn:Hp.
    + done.
    + rewrite raises_bind_inr. by repeat (rewrite overwrite_put, ?raises_bind_inr).
    + by apply candidate_phone_frame in Hp as (d' & ? & _).
  - rewrite raises_bind_inr.
    destruct (candidate_phone _ _) as [e|[d|]] eqn:Hp.
    + done.
    + rewrite raises_bind_inr. by repeat (rewrite overwrite_put, ?raises_bind_inr).
    + by apply candidate_phone_frame in Hp as (d' & ? & _).
Qed.

Lemma lookup_put_untouched key v (d : User) k :
  bool_decide (k = key) && truthy v = false -> put key v d !! k = d !! k.
Proof.
  intros H. unfold put. destruct (truthy v); [|done].
  rewrite andb_true_r in H. apply bool_decide_eq_false in H.
  by rewrite lookup_insert_ne.
Qed.

Lemma candidate_is_record p (u : User) full r :
  candidate p (Some u) full = inr r ->
  exists d, candidate_phone p (Some (before_phone p full u)) = inr (Some d)
            /\ r = Some (after_phone p d).
Proof.
  rewrite candidate_Some.
  destruct (candidate_phone _ _) as [e|[d|]]; try done.
  intros [= <-]. eauto.
Qed.

Lemma candidate_frame p (u : User) full r k :
  candidate p (Some u) full = inr r ->
  touched p full k = false ->
  exists nu, r = Some nu /\ nu !! k = u !! k.
Proof.
  intros (d & Hp & ->)%candidate_is_record Ht.
  eexists; split; [done|].
  unfold touched in Ht.
  repeat (apply orb_false_iff in Ht as [Ht ?]).
  unfold after_phone. rewrite !lookup_put_untouched by done.
  transitivity (before_phone p full u !! k).
  - destruct (decide (k = "phone")) as [->|Hne].
    + rewrite candidate_phone_untouched in Hp.
      * by injection Hp as <-.
      * by destruct (remove_phone p).
      * destruct (remove_phone p); [done|].
        by destruct (truthy (of_int (phone p))).
      * destruct (remove_phone p); [done|].
        destruct (truthy (of_int (phone p))); [done|].
        by destruct (truthy (of_int (phone_country_code p))).
    + apply candidate_phone_frame in Hp as (d' & [= <-] & Hf). by apply Hf.
  - unfold before_phone. destruct full.
    + rewrite andb_true_r in *. by rewrite !lookup_put_untouched.
    + by rewrite !lookup_put_untouched.
Qed.

Lemma is_None_true {A} (o : option A) : is_None o = true -> o = None.
Proof. by destruct o. Qed.

Lemma left_out_untouched p full f :
  left_out p f = true -> touched p full (key_of f) = false.
Proof.
  intros H. unfold touched. destruct f; simpl in H;
    repeat (apply andb_true_iff in H as [H ?]);
    repeat match goal with
           | H : is_None ?o = true |- _ => apply is_None_true in H; rewrite H
           | H : negb ?b = true |- _ => apply negb_true_iff in H; rewrite H
           end; simpl; rewrite ?andb_false_r; done.
Qed.

Lemma nested_put sub k v (d : User) :
  k ≠ "phone" -> nested sub (put k v d) = nested sub d.
Proof.
  intros Hk. unfold nested, put.
  destruct (truthy v); [|done]. by rewrite lookup_insert_ne.
Qed.

Lemma nested_before_phone sub p full (u : User) :
  nested sub (before_phone p full u) = nested sub u.
Proof.
  unfold before_phone. destruct full; by rewrite !nested_put.
Qed.

Lemma nested_after_phone sub p (d : User) :
  nested sub (after_phone p d) = nested sub d.
Proof. unfold after_phone. by rewrite !nested_put. Qed.

(** Without the removal flag, the phone block changes an attribute of the
    nested object only when its own parameter is set. *)
Lemma candidate_phone_nested p (d d' : User) :
  remove_phone p = false ->
  candidate_phone p (Some d) = inr (Some d') ->
  (truthy (of_int (phone p)) = false ->
   nested "number" d' = nested "number" d)
  /\ (truthy (of_int (phone_country_code p)) = false ->
      nested "countryCode" d' = nested "countryCode" d).
Proof.
  intros Hr. unfold candidate_phone. rewrite Hr, set_number_Some.
  unfold phone_base.
  destruct (truthy (of_int (phone p))) eqn:Tp.
  - destruct (truthy (get d "phone")) eqn:Tg.
    + apply truthy_get_Some in Tg as (v & E & ->).
      destruct v as [a|l|m]; try done. rewrite raises_bind_inr.
      rewrite set_country_code_Some.
      destruct (truthy (of_int (phone_country_code p))) eqn:Tc; simpl.
      * unfold get at 1 2. rewrite !lookup_insert_eq. simpl.
        destruct (bool_decide _); simpl; intros [= <-]; (split; [done|]); done.
      * intros [= <-]. split; [done|]. intros _. unfold nested.
        rewrite lookup_insert_eq, E. by rewrite lookup_insert_ne.
    + rewrite raises_bind_inr, set_country_code_Some.
      destruct (truthy (of_int (phone_country_code p))) eqn:Tc; simpl.
      * unfold get at 1 2. rewrite !lookup_insert_eq. simpl.
        destruct (bool_decide _); simpl; intros [= <-]; (split; [done|]); done.
      * intros [= <-]. split; [done|]. intros _. unfold nested.
        rewrite lookup_insert_eq, lookup_insert_ne by done.
        rewrite lookup_empty. unfold get in Tg.
        destruct (d !! "phone") as [[a|l|m]|]; try done. simpl in Tg.
        apply negb_false_iff, bool_decide_eq_true in Tg. by subst.
  - rewrite raises_bind_inr, set_country_code_Some.
    destruct (truthy (of_int (phone_country_code p))) eqn:Tc; simpl.
    + destruct (truthy (get d "phone")) eqn:Tg.
      * apply truthy_get_Some in Tg as (v & E & ->).
        destruct v as [a|l|m]; try done. intros [= <-].
        split; [|done]. intros _. unfold nested.
        rewrite lookup_insert_eq, E. by rewrite lookup_insert_ne.
      * by intros [= <-].
    + by intros [= <-].
Qed.

Lemma lookup_before_phone p full (u : User) :
  before_phone p full u !! "phone" = u !! "phone".
Proof.
  unfold before_phone. destruct full; by rewrite !lookup_put_untouched.
Qed.

(** On a user whose phone entry is an object or empty, the candidate
    record is always built. *)
Lemma candidate_phone_total p (d : User) :
  phone_is_object d -> exists d', candidate_phone p (Some d) = inr (Some d').
Proof.
  intros Hd. unfold candidate_phone. destruct (remove_phone p).
  { rewrite drop_phone_Some. eauto. }
  rewrite set_number_Some. unfold phone_base.
  assert (Hbase : exists m, (if truthy (get d "phone") then get d "phone"
                             else VDict ∅) = VDict m).
  { destruct Hd as [->|(m & E)]; [eauto|].
    unfold get. rewrite E. simpl. destruct (negb _); eauto. }
  destruct Hbase as (m & ->).
  destruct (truthy (of_int (phone p))); rewrite raises_bind_inr,
    set_country_code_Some.
  - unfold get. rewrite lookup_insert_eq. simpl.
    destruct (_ && _); eauto.
  - destruct (truthy (of_int (phone_country_code p))); simpl; [|eauto].
    destruct Hd as [->|(m' & E)]; [eauto|].
    unfold get. rewrite E. simpl. destruct (negb _); eauto.
Qed.

Lemma candidate_total p (u : User) full :
  phone_is_object u -> exists nu, candidate p (Some u) full = inr (Some nu).
Proof.
  intros Hu. rewrite candidate_Some.
  destruct (candidate_phone_total p (before_phone p full u)) as (d & ->);
    [|eauto].
  unfold phone_is_object, get in *. by rewrite lookup_before_phone.
Qed.

(** ** Fields the caller leaves out *)

(** C5.  A field that is absent from the desired state is not in the
    Delta of [compare_user]: the candidate record, whenever it is built
    (and it is built for every user whose phone entry is an object or
    empty), holds the observed value under the key of that field, and the
    Delta has no entry for the key.  The phone number and the country code
    are attributes of one nested object: leaving one of them out leaves
    that attribute as observed. *)
Theorem absent_fields_not_in_delta (p : Params) (u : User) (full : bool) :
  (phone_is_object u -> exists nu, candidate p (Some u) full = inr (Some nu))
  /\ forall r, candidate p (Some u) full = inr r ->
     exists nu, r = Some nu
     /\ (forall f, left_out p f = true ->
           nu !! key_of f = u !! key_of f
           /\ compare_json (Some nu) (Some u) None !! key_of f = None)
     /\ (remove_phone p = false -> phone p = None ->
         nested "number" nu = nested "number" u)
     /\ (remove_phone p = false -> phone_country_code p = None ->
         nested "countryCode" nu = nested "countryCode" u).
Proof.
  split; [apply candidate_total|]. intros r Hr.
  destruct (candidate_is_record _ _ _ _ Hr) as (d & Hp & ->).
  eexists; split; [done|]. split; [|split].
  - intros f Hf.
    destruct (candidate_frame _ _ _ _ (key_of f) Hr) as (nu & [= <-] & E).
    { by apply left_out_untouched. }
    split; [done|]. simpl. by apply delta_lookup_same.
  - intros Hrm Hph.
    apply (candidate_phone_nested _ _ _ Hrm) in Hp as [Hn _].
    rewrite nested_after_phone, Hn, ?nested_before_phone; [done|].
    by rewrite Hph.
  - intros Hrm Hcc.
    apply (candidate_phone_nested _ _ _ Hrm) in Hp as [_ Hn].
    rewrite nested_after_phone, Hn, ?nested_before_phone; [done|].
    by rewrite Hcc.
Qed.

(** ** The password *)

Section Password.
Context {W : Type} `{D : Diff} (client : Client W).

(** A non-empty [new_password] makes the password change the first call
    of the reconciliation. *)
Lemma converge_password_first (m : Module) (u : User) (s : run_state W) :
  truthy (of_str (new_password (params m))) = true ->
  exists rest,
    trace (finish (converge client m u) s).2
    = (trace s ++ ChangeUserPassword (get u "userName")
                    (new_password (params m)) :: rest)%list.
Proof.
  intros Hpw. explore; try congruence.
  all: rewrite <- ?app_assoc; simpl; by eexists.
Qed.

(** Without one, the password is never changed. *)
Lemma converge_password_kept (m : Module) (u : User) (s : run_state W) :
  truthy (of_str (new_password (params m))) = false ->
  exists calls,
    trace (finish (converge client m u) s).2 = (trace s ++ calls)%list
    /\ forall pw, ChangePassword pw ∉ decisions calls.
Proof.
  intros Hpw. explore; try congruence.
  all: appended; intros pw Hin;
    repeat (apply elem_of_cons in Hin as [? | Hin]; [done|]);
    by apply elem_of_nil in Hin.
Qed.
End Password.

Lemma write_only_untouched p full k :
  k ∈ write_only -> touched p full k = false.
Proof.
  unfold write_only. intros Hk.
  repeat (apply elem_of_cons in Hk as [-> | Hk]); [..|by apply elem_of_nil in Hk].
  all: unfold touched; simpl; done.
Qed.

(** C6, as amended.  The password parameters have no part in the
    comparison: the candidate record does not depend on them and leaves
    the password keys as observed, so the Delta has no entry for them.
    For an existing user, a [new_password] that is present and not empty
    makes [change_user_password] the first call of the reconciliation,
    whatever [compare_json] reports; an empty one changes nothing. *)
Theorem password_is_write_only :
  (forall p pw npw u full,
     candidate (with_passwords pw npw p) u full = candidate p u full)
  /\ (forall p (u : User) full r k,
        k ∈ write_only -> candidate p (Some u) full = inr r ->
        exists nu, r = Some nu /\ nu !! k = u !! k
                   /\ compare_json (Some nu) (Some u) None !! k = None)
  /\ (forall W (D : Diff) (client : Client W) m u s,
        truthy (of_str (new_password (params m))) = true ->
        exists rest,
          trace (finish (converge client m u) s).2
          = (trace s ++ ChangeUserPassword (get u "userName")
                          (new_password (params m)) :: rest)%list)
  /\ (forall W (D : Diff) (client : Client W) m u s,
        truthy (of_str (new_password (params m))) = false ->
        exists calls,
          trace (finish (converge client m u) s).2 = (trace s ++ calls)%list
          /\ forall pw, ChangePassword pw ∉ decisions calls).
Proof.
  split; [done|]. split; [|split].
  - intros p u full r k Hk Hr.
    destruct (candidate_frame _ _ _ _ k Hr) as (nu & -> & E).
    { by apply write_only_untouched. }
    eexists; split; [done|]. split; [done|]. simpl.
    by apply delta_lookup_same.
  - intros. by apply converge_password_first.
  - intros. by apply converge_password_kept.
Qed.

(** C6 fails as stated: a [new_password] that is present but empty is
    not applied. *)
Lemma empty_new_password_is_ignored :
  let p := with_passwords None (Some "") (only_username "joey") in
  new_password p = Some ""
  /\ decisions (trace (finish (main env_ok account_client
                                 {| params := p; check_mode := false |})
                         (start (Some joey))).2) = [].
Proof. vm_compute. split; reflexivity. Qed.

(** ** The phone *)

Lemma lookup_after_phone p (d : User) :
  after_phone p d !! "phone" = d !! "phone".
Proof. unfold after_phone. by rewrite !lookup_put_untouched. Qed.

Lemma get_before_phone p full (u : User) :
  get (before_phone p full u) "phone" = get u "phone".
Proof. unfold get. by rewrite lookup_before_phone. Qed.

(** C9, as amended.  With the removal flag set, the candidate record
    holds no phone: a non-empty observed phone entry is deleted as a whole
    (an empty one stays as it is), and the desired phone number and
    country code are ignored.  With the flag unset and a desired phone
    number other than 0, the phone entry of the candidate is the nested
    object, the observed one or a new one, with the number as a string
    and, when a country code other than 0 is given, the country code as a
    string. *)
Theorem phone_removed_or_coerced (p : Params) (u : User) (full : bool) :
  (phone_is_object u -> exists nu, candidate p (Some u) full = inr (Some nu))
  /\ (remove_phone p = true ->
      forall ph cc,
        candidate (with_phone ph cc p) (Some u) full
        = candidate p (Some u) full)
  /\ forall r, candidate p (Some u) full = inr r ->
     exists nu, r = Some nu
     /\ (remove_phone p = true ->
         truthy (get nu "phone") = false
         /\ nu !! "phone"
            = if truthy (get u "phone") then None else u !! "phone")
     /\ (remove_phone p = false -> truthy (of_int (phone p)) = true ->
         exists m, phone_base u = VDict m
                   /\ nu !! "phone" = Some (coerced_phone p m)).
Proof.
  split; [apply candidate_total|]. split.
  { intros Hr ph cc. unfold candidate, candidate_phone. simpl. by rewrite Hr. }
  intros r Hc.
  destruct (candidate_is_record _ _ _ _ Hc) as (d & Hp & ->).
  eexists; split; [done|]. unfold get at 1.
  rewrite lookup_after_phone. unfold candidate_phone in Hp. split.
  - intros Hr. rewrite Hr, drop_phone_Some, get_before_phone in Hp.
    injection Hp as <-.
    destruct (truthy (get u "phone")) eqn:T.
    + by rewrite lookup_delete_eq.
    + rewrite lookup_before_phone. split; [|done]. exact T.
  - intros Hr Hph. rewrite Hr, set_number_Some, Hph in Hp.
    unfold phone_base in *. rewrite get_before_phone in Hp.
    destruct (if truthy (get u "phone") then get u "phone" else VDict ∅)
      as [a|l|m]; try done.
    rewrite raises_bind_inr, set_country_code_Some in Hp.
    unfold get in Hp at 1 2. rewrite lookup_insert_eq in Hp. simpl in Hp.
    exists m. split; [done|]. unfold coerced_phone.
    assert (Hne : bool_decide
              (<["number" := AStr (str (default 0%Z (phone p)))]> m = ∅)
            = false).
    { apply bool_decide_eq_false. apply insert_non_empty. }
    rewrite Hne in Hp. simpl in Hp. rewrite andb_true_r in Hp.
    destruct (truthy (of_int (phone_country_code p))); injection Hp as <-;
      by rewrite lookup_insert_eq.
Qed.

(** C9 fails as stated: a desired phone number of 0 is present, the flag
    is unset, and the candidate record has no phone entry at all. *)
Lemma phone_zero_is_not_coerced :
  let p := with_phone (Some 0%Z) (Some 1%Z) (only_username "joey") in
  remove_phone p = false /\ phone p = Some 0%Z
  /\ match candidate p (Some joey) true with
     | inr (Some nu) => nu !! "phone" = None
     | _ => False
     end.
Proof. vm_compute. repeat split; reflexivity. Qed.

(** ** Falsy values *)

Lemma overwrite_keep_str k o x :
  overwrite k (of_str (keep_str o)) x = overwrite k (of_str o) x.
Proof.
  unfold keep_str, overwrite. by destruct (truthy (of_str o)) eqn:E; rewrite ?E.
Qed.

Lemma overwrite_keep_val k o x :
  overwrite k (of_opt (keep_val o)) x = overwrite k (of_opt o) x.
Proof.
  unfold keep_val, overwrite. by destruct (truthy (of_opt o)) eqn:E; rewrite ?E.
Qed.

Lemma candidate_phone_forget p x :
  candidate_phone (forget_falsy p) x = candidate_phone p x.
Proof.
  unfold candidate_phone, set_number, set_country_code, keep_int. simpl.
  unfold keep_int.
  destruct (truthy (of_int (phone p))) eqn:E1,
    (truthy (of_int (phone_country_code p))) eqn:E2;
    by rewrite ?E1, ?E2.
Qed.

Lemma raises_bind_ext {A B} (m m' : raises A) (f g : A -> raises B) :
  m = m' -> (forall a, f a = g a) -> (m ≫= f) = (m' ≫= g).
Proof. intros <- H. destruct m; [done|]. apply H. Qed.

Lemma candidate_forget p u full :
  candidate (forget_falsy p) u full = candidate p u full.
Proof.
  unfold candidate.
  repeat (apply raises_bind_ext; [|intros ?]);
    try apply overwrite_keep_str; try apply candidate_phone_forget.
  destruct full; [apply overwrite_keep_val | done].
Qed.

Lemma falsy_untouched p full f :
  falsy_field p f = true -> touched p full (key_of f) = false.
Proof.
  intros H. unfold touched. destruct f; simpl in H;
    repeat (apply andb_true_iff in H as [H ?]);
    repeat match goal with
           | H : negb ?b = true |- _ => apply negb_true_iff in H; rewrite H
           end; simpl; rewrite ?andb_false_r; done.
Qed.

(** C10, as amended.  [compare_user] treats a falsy value of an optional
    field (an empty string, 0, an empty list) exactly as if the field had
    been left out: the candidate record and the result of [compare_user]
    are the same as with the field absent, the candidate holds the
    observed value under the key of the field, and the Delta has no entry
    for it. *)
Theorem falsy_values_are_absent :
  (forall p u full, candidate (forget_falsy p) u full = candidate p u full)
  /\ (forall W (D : Diff) m u full (s : run_state W),
        compare_user {| params := forget_falsy (params m);
                        check_mode := check_mode m |} u full s
        = compare_user m u full s)
  /\ (forall p (u : User) full r,
        candidate p (Some u) full = inr r ->
        exists nu, r = Some nu
        /\ (forall f, falsy_field p f = true ->
              nu !! key_of f = u !! key_of f
              /\ compare_json (Some nu) (Some u) None !! key_of f = None)
        /\ (remove_phone p = false -> truthy (of_int (phone p)) = false ->
            nested "number" nu = nested "number" u)
        /\ (remove_phone p = false ->
            truthy (of_int (phone_country_code p)) = false ->
            nested "countryCode" nu = nested "countryCode" u)).
Proof.
  split; [apply candidate_forget|]. split.
  { intros. unfold compare_user. simpl. by rewrite candidate_forget. }
  intros p u full r Hr.
  destruct (candidate_is_record _ _ _ _ Hr) as (d & Hp & ->).
  eexists; split; [done|]. split; [|split].
  - intros f Hf.
    destruct (candidate_frame _ _ _ _ (key_of f) Hr) as (nu & [= <-] & E).
    { by apply falsy_untouched. }
    split; [done|]. simpl. by apply delta_lookup_same.
  - intros Hrm Hph.
    apply (candidate_phone_nested _ _ _ Hrm) in Hp as [Hn _].
    by rewrite nested_after_phone, Hn, ?nested_before_phone.
  - intros Hrm Hcc.
    apply (candidate_phone_nested _ _ _ Hrm) in Hp as [_ Hn].
    by rewrite nested_after_phone, Hn, ?nested_before_phone.
Qed.

(** C10 fails as stated: an empty role list is falsy, and yet the update
    path applies it, because [main] compares the roles once more with
    [compare_user_roles], which looks at the parameter itself. *)
Lemma empty_role_list_is_applied :
  let r := finish (main env_ok account_client
                     {| params := joey_no_roles; check_mode := false |})
             (start (Some joey)) in
  truthy (of_opt (roles joey_no_roles)) = false
  /\ joey !! "role" = Some (VList [AStr "network"])
  /\ decisions (trace r.2) = [UpdateRoles (Some (VList []))]
  /\ match r.1 with
     | exit_json (Some true) (Some (DUser (Some nu))) _ =>
         nu !! "role" = Some (VList [])
     | _ => False
     end.
Proof. vm_compute. repeat split; reflexivity. Qed.

(** ** Roles *)

Section Roles.
Context {W : Type} `{D : Diff} (client : Client W).

(** When the comparison of the roles reports no change, no role is
    set. *)
Lemma converge_roles_kept (m : Module) (u : User) (s : run_state W) :
  changes (compare_user_roles m (get u "role")) = false ->
  exists calls,
    trace (finish (converge client m u) s).2 = (trace s ++ calls)%list
    /\ forall rs, UpdateRoles rs ∉ decisions calls.
Proof.
  intros Hc. explore; try congruence.
  all: appended; intros rs Hin;
    repeat (apply elem_of_cons in Hin as [? | Hin]; [done|]);
    by apply elem_of_nil in Hin.
Qed.
End Roles.

Lemma candidate_role p (u : User) full r :
  candidate p (Some u) full = inr r ->
  exists nu, r = Some nu
  /\ nu !! "role" = if full && truthy (of_opt (roles p))
                    then Some (of_opt (roles p)) else u !! "role".
Proof.
  intros (d & Hp & ->)%candidate_is_record. eexists; split; [done|].
  unfold after_phone. rewrite !lookup_put_untouched by done.
  apply candidate_phone_frame in Hp as (d' & [= <-] & Hf).
  rewrite Hf by done. unfold before_phone.
  destruct full; simpl.
  - rewrite lookup_put. destruct (truthy _); simpl; [done|].
    by rewrite !lookup_put_untouched.
  - by rewrite !lookup_put_untouched.
Qed.

(** C1.  When the desired roles and the observed roles hold the same role
    names, in whatever order, [compare_user_roles] reports no change, the
    Delta of [compare_user] has no entry for [role], and the
    reconciliation sets no roles. *)
Theorem role_comparison_ignores_order {W} (client : Client W) (m : Module)
    (wanted observed : list atom) :
  roles (params m) = Some (VList wanted) ->
  (forall r, r ∈ wanted <-> r ∈ observed) ->
  compare_user_roles m (VList observed) = ∅
  /\ changes (compare_user_roles m (VList observed)) = false
  /\ (forall (u : User) full r,
        u !! "role" = Some (VList observed) ->
        candidate (params m) (Some u) full = inr r ->
        exists nu, r = Some nu
                   /\ compare_json (Some nu) (Some u) None !! "role" = None)
  /\ (forall (u : User) (s : run_state W),
        u !! "role" = Some (VList observed) ->
        exists calls,
          trace (finish (converge client m u) s).2 = (trace s ++ calls)%list
          /\ forall rs, UpdateRoles rs ∉ decisions calls).
Proof.
  intros Hw Hsame.
  assert (E : compare_user_roles m (VList observed) = ∅).
  { unfold compare_user_roles. rewrite Hw. simpl.
    apply delta_singleton. rewrite differs_role_lists.
    by rewrite same_set_true. }
  split; [exact E|]. split; [by rewrite E|]. split.
  - intros u full r Hu Hr.
    apply candidate_role in Hr as (nu & -> & Hnu).
    eexists; split; [done|].
    change (delta nu u !! "role" = None).
    rewrite Hw in Hnu.
    change (of_opt (Some (VList wanted))) with (VList wanted) in Hnu.
    rewrite delta_lookup, Hnu, Hu.
    destruct (full && _); [|by rewrite differs_same].
    by rewrite differs_role_lists, same_set_true.
  - intros u s Hu. apply converge_roles_kept.
    unfold get. rewrite Hu.
    change (of_opt (Some (VList observed))) with (VList observed).
    by rewrite E.
Qed.

(** ** Idempotence *)

Lemma put_same k v (u : User) : u !! k = Some v -> put k v u = u.
Proof. intros E. unfold put. destruct (truthy v); [|done]. by apply insert_id. Qed.

Lemma put_asked_str k (o : option string) (u : User) :
  (forall v, (fun s => PyStr s) <$> o = Some v -> u !! k = Some v) ->
  put k (of_str o) u = u.
Proof. destruct o as [s|]; [|done]. intros H. apply put_same, H. done. Qed.

Lemma put_asked_val k (o : option value) (u : User) :
  (forall v, o = Some v -> u !! k = Some v) -> put k (of_opt o) u = u.
Proof. destruct o as [v|]; [|done]. intros H. by apply put_same, H. Qed.

Lemma nested_Some sub (u : User) a :
  nested sub u = Some a ->
  exists m, u !! "phone" = Some (VDict m) /\ m !! sub = Some a
            /\ get u "phone" = VDict m /\ truthy (get u "phone") = true.
Proof.
  unfold nested, get. destruct (u !! "phone") as [[?|?|m]|]; try done.
  intros E. exists m. repeat split; try done. simpl.
  apply negb_true_iff, bool_decide_eq_false. intros ->.
  by rewrite lookup_empty in E.
Qed.

Section Agrees.
Context (p : Params) (u : User) (Hagree : agrees p u).

Lemma agrees_before_phone full : before_phone p full u = u.
Proof.
  destruct Hagree as [H _]. unfold before_phone.
  rewrite (put_asked_str "fullName") by apply (H Fullname).
  rewrite (put_asked_str "lastName") by apply (H Lastname).
  rewrite (put_asked_str "firstName") by apply (H Firstname).
  rewrite (put_asked_str "emailAddress") by apply (H Email).
  destruct full; [|done]. apply put_asked_val, (H Roles).
Qed.

Lemma agrees_after_phone : after_phone p u = u.
Proof.
  destruct Hagree as [H _]. unfold after_phone.
  rewrite (put_asked_str "department") by apply (H Department).
  rewrite (put_asked_str "customDefined1") by apply (H Custom1).
  apply put_asked_str, (H Custom2).
Qed.

Lemma agrees_number : set_number p (Some u) = inr (Some u).
Proof.
  destruct Hagree as [H _]. rewrite set_number_Some.
  destruct (truthy (of_int (phone p))) eqn:T; [|done].
  destruct (phone p) as [z|] eqn:Hz; [|done].
  specialize (H Phone (PyStr (str z))). simpl in H. rewrite Hz in H.
  specialize (H eq_refl).
  destruct (nested "number" u) as [a|] eqn:Hn; [|done].
  injection H as ->.
  apply nested_Some in Hn as (m & E & Em & G & Tg).
  unfold phone_base. rewrite Tg, G. simpl.
  by rewrite (insert_id m), (insert_id u).
Qed.

Lemma agrees_country_code : set_country_code p (Some u) = inr (Some u).
Proof.
  destruct Hagree as [H _]. rewrite set_country_code_Some.
  destruct (truthy (of_int (phone_country_code p))) eqn:T; [|done].
  destruct (phone_country_code p) as [z|] eqn:Hz; [|done].
  specialize (H PhoneCountryCode (PyStr (str z))). simpl in H.
  rewrite Hz in H. specialize (H eq_refl).
  destruct (nested "countryCode" u) as [a|] eqn:Hn; [|done].
  injection H as ->.
  apply nested_Some in Hn as (m & E & Em & G & Tg).
  rewrite Tg, G. simpl.
  by rewrite (insert_id m), (insert_id u).
Qed.

(** The candidate record of a desired state that agrees with the
    observed user is the observed user. *)
Lemma agrees_candidate full : candidate p (Some u) full = inr (Some u).
Proof.
  rewrite candidate_Some, agrees_before_phone. unfold candidate_phone.
  destruct (remove_phone p) eqn:Hr.
  - rewrite drop_phone_Some. destruct Hagree as [_ ->]; [|done].
    by rewrite agrees_after_phone.
  - rewrite agrees_number, raises_bind_inr, agrees_country_code.
    by rewrite agrees_after_phone.
Qed.

Lemma agrees_roles m :
  params m = p -> compare_user_roles m (get u "role") = ∅.
Proof.
  intros Hm. destruct Hagree as [H _]. unfold compare_user_roles.
  rewrite Hm. simpl. apply delta_singleton.
  destruct (roles p) as [r|] eqn:Hr.
  - specialize (H Roles r). simpl in H. rewrite Hr in H.
    specialize (H eq_refl). unfold get. rewrite H. apply differs_same.
  - apply differs_unset.
Qed.
End Agrees.

Section Noop.
Context {W : Type} `{D : Diff} (client : Client W).

(** When both candidate records are the observed user and neither
    comparison reports a change, the reconciliation calls nothing. *)
Lemma converge_noop (m : Module) (u : User) (s : run_state W) :
  truthy (of_str (new_password (params m))) = false ->
  (forall full, candidate (params m) (Some u) full = inr (Some u)) ->
  changes (compare_json (Some u) (Some u) None) = false ->
  changes (compare_user_roles m (get u "role")) = false ->
  finish (converge client m u) s
  = (if check_mode m
     then exit_json None
            (Some (DCompare (compare_json (Some u) (Some u) None))) None
     else exit_json (Some false) (Some (DUser (Some u))) None,
     s).
Proof.
  intros Hpw Hc Hj Hr. unfold_run. rewrite Hpw. simpl.
  rewrite (Hc true). destruct (check_mode m); [done|]. simpl.
  rewrite Hr. simpl. rewrite (Hc false). simpl. by rewrite Hj.
Qed.
End Noop.

(** C4.  Reconciling an existing user with a desired state whose present
    fields all equal the observed ones, and without a new password, is a
    NoOp: no call is made, and the module exits with [changed=False] and
    the observed user (in check mode, with the empty Delta). *)
Theorem reconcile_observed_is_noop {W} (client : Client W) (m : Module)
    (u : User) (s : run_state W) :
  agrees (params m) u ->
  new_password (params m) = None ->
  candidate (params m) (Some u) true = inr (Some u)
  /\ compare_json (Some u) (Some u) None = ∅
  /\ compare_user_roles m (get u "role") = ∅
  /\ finish (converge client m u) s
     = (if check_mode m
        then exit_json None (Some (DCompare ∅)) None
        else exit_json (Some false) (Some (DUser (Some u))) None,
        s).
Proof.
  intros Ha Hpw.
  assert (E1 : compare_json (Some u) (Some u) None = ∅) by apply delta_same.
  assert (E2 : compare_user_roles m (get u "role") = ∅)
    by (by apply (agrees_roles (params m))).
  split; [by apply agrees_candidate|]. split; [exact E1|]. split; [exact E2|].
  rewrite converge_noop.
  - by rewrite E1.
  - by rewrite Hpw.
  - intros full. by apply agrees_candidate.
  - by rewrite E1.
  - by rewrite E2.
Qed.

(** ** The theorems at concrete inputs *)

Lemma role_comparison_ignores_order_witness :
  let m := {| params := joey_desired; check_mode := false |} in
  let observed := [AStr "server"; AStr "network"] in
  roles (params m) = Some (VList [AStr "network"; AStr "server"])
  /\ (forall r, r ∈ [AStr "network"; AStr "server"] <-> r ∈ observed)
  /\ compare_user_roles m (VList observed) = ∅
  /\ changes (compare_user_roles m (VList observed)) = false.
Proof.
  assert (H : forall r : atom,
             r ∈ [AStr "network"; AStr "server"]
             <-> r ∈ [AStr "server"; AStr "network"]).
  { intros r. rewrite !elem_of_cons, !elem_of_nil. tauto. }
  split; [reflexivity|]. split; [exact H|].
  destruct (role_comparison_ignores_order account_client
              {| params := joey_desired; check_mode := false |}
              [AStr "network"; AStr "server"] [AStr "server"; AStr "network"]
              eq_refl H) as (E1 & E2 & _).
  split; [exact E1 | exact E2].
Defined.

Lemma env_ok_preamble (p : Params) : region p = "na" -> preamble_ok env_ok p.
Proof.
  intros E. unfold preamble_ok. rewrite E. repeat split.
  apply elem_of_cons. by left.
Defined.

Lemma present_creates_or_updates_witness :
  let m := {| params := joey_desired; check_mode := false |} in
  state (params m) = present
  /\ preamble_ok env_ok (params m)
  /\ (observe account_client (params m) (Some joey)).1 = inr (Some joey)
  /\ decisions (trace (finish (main env_ok account_client m)
                         (start (Some joey))).2)
       `sublist_of` update_plan (params m).
Proof.
  split; [reflexivity|]. split; [by apply env_ok_preamble|].
  split; [reflexivity|].
  exact (proj1 (proj2
    (present_creates_or_updates spec_diff spec_diff env_ok account_client
       {| params := joey_desired; check_mode := false |} (Some joey)
       (Some joey) eq_refl (env_ok_preamble joey_desired eq_refl) eq_refl))).
Defined.

Lemma joey_again_agrees : agrees joey_again joey.
Proof.
  split; [|done]. intros f v.
  destruct f; simpl; intros [= <-]; reflexivity.
Defined.

Lemma reconcile_observed_is_noop_witness :
  let m := {| params := joey_again; check_mode := false |} in
  agrees (params m) joey
  /\ new_password (params m) = None
  /\ finish (converge account_client m joey) (start (Some joey))
     = (exit_json (Some false) (Some (DUser (Some joey))) None,
        start (Some joey)).
Proof.
  split; [exact joey_again_agrees|]. split; [reflexivity|].
  exact (proj2 (proj2 (proj2
    (reconcile_observed_is_noop account_client
       {| params := joey_again; check_mode := false |} joey
       (start (Some joey)) joey_again_agrees eq_refl)))).
Defined.

Lemma invalid_input_fails_before_any_call_witness :
  let m := {| params := only_username "joey"; check_mode := false |} in
  missing_required (params m) = true
  /\ (exists msg, finish (create_user account_client m) (start None)
                  = (fail_json msg, start None))
  /\ finish (delete_user account_client m None) (start None)
     = (fail_json "A valid username is required", start None).
Proof.
  split; [reflexivity|].
  destruct (invalid_input_fails_before_any_call account_client
              {| params := only_username "joey"; check_mode := false |}
              (start None) (or_introl eq_refl)) as (H1 & H2 & _).
  split; [exact H1 | exact H2].
Defined.

(** The example of an omitted email address: nothing is called, and the
    module exits unchanged with the address still there. *)
Example omitted_email_is_untouched :
  let r := finish (main env_ok account_client
                     {| params := only_username "u"; check_mode := false |})
             (start (Some user_with_email)) in
  decisions (trace r.2) = []
  /\ match r.1 with
     | exit_json (Some false) (Some (DUser (Some u))) None =>
         u !! "emailAddress" = Some (PyStr "e@x.com")
     | _ => False
     end.
Proof. vm_compute. split; reflexivity. Qed.

Lemma absent_fields_not_in_delta_witness :
  let p := only_username "u" in
  left_out p Email = true
  /\ exists nu,
       candidate p (Some user_with_email) true = inr (Some nu)
       /\ nu !! "emailAddress" = Some (PyStr "e@x.com")
       /\ compare_json (Some nu) (Some user_with_email) None
            !! "emailAddress" = None.
Proof.
  split; [reflexivity|].
  destruct (absent_fields_not_in_delta (only_username "u") user_with_email
              true) as [Htotal Hframe].
  destruct Htotal as (nu & Hnu); [by left|].
  destruct (Hframe _ Hnu) as (nu' & [= <-] & Hf & _).
  destruct (Hf Email eq_refl) as [E1 E2].
  exists nu. split; [exact Hnu|]. split; [|exact E2].
  exact (eq_trans E1 eq_refl).
Defined.

Lemma password_is_write_only_witness :
  let m := {| params := joey_desired; check_mode := false |} in
  truthy (of_str (new_password (params m))) = true
  /\ exists rest,
       trace (finish (converge account_client m joey) (start (Some joey))).2
       = ChangeUserPassword (PyStr "joey") (Some "x") :: rest.
Proof.
  split; [reflexivity|].
  destruct password_is_write_only as (_ & _ & Hfirst & _).
  exact (Hfirst _ spec_diff account_client
           {| params := joey_desired; check_mode := false |} joey
           (start (Some joey)) eq_refl).
Defined.

Lemma phone_removed_or_coerced_witness :
  remove_phone joey_phone = false
  /\ truthy (of_int (phone joey_phone)) = true
  /\ exists nu,
       candidate joey_phone (Some joey) true = inr (Some nu)
       /\ nu !! "phone" = Some (coerced_phone joey_phone ∅).
Proof.
  split; [reflexivity|]. split; [reflexivity|].
  destruct (phone_removed_or_coerced joey_phone joey true)
    as (Htotal & _ & Hphone).
  destruct Htotal as (nu & Hnu); [by left|].
  destruct (Hphone _ Hnu) as (nu' & [= <-] & _ & Hc).
  destruct (Hc eq_refl eq_refl) as (m & Hm & E).
  exists nu. split; [exact Hnu|].
  assert (Hbase : phone_base joey = VDict ∅) by reflexivity.
  rewrite Hbase in Hm. injection Hm as <-. exact E.
Defined.

Lemma falsy_values_are_absent_witness :
  fullname joey_blank_name = Some ""
  /\ falsy_field joey_blank_name Fullname = true
  /\ exists nu,
       candidate joey_blank_name (Some joey) true = inr (Some nu)
       /\ nu !! "fullName" = Some (PyStr "Joey Joe").
Proof.
  split; [reflexivity|]. split; [reflexivity|].
  destruct falsy_values_are_absent as (_ & _ & Hf).
  destruct (candidate_total joey_blank_name joey true) as (nu & Hnu);
    [by left|].
  destruct (Hf _ _ _ _ Hnu) as (nu' & [= <-] & Hfield & _).
  destruct (Hfield Fullname eq_refl) as [E _].
  exists nu. split; [exact Hnu|]. exact (eq_trans E eq_refl).
Defined.

(** * Further properties of [user.py] *)

(** ** Removal *)


Lemma decisions_search_cons (p : Params) (calls : list api_call) :
  decisions (search_call p :: calls) = decisions calls.
Proof. apply (decisions_after_search p calls). Qed.


(** X1.  With [state=absent], once the module has its client, the only
    write a run can make is one [remove_user].  A user that is not found
    is a success that writes nothing; check mode writes nothing; otherwise
    the user named by the parameter is removed, and the run reports
    [changed=True] with the message of the API, or fails with the error of
    the API. *)
Theorem absent_removes_at_most_once {W} `{D : Diff} (env : Env)
    (client : Client W) (m : Module) (w : W) (found : option User) :
  state (params m) = absent ->
  preamble_ok env (params m) ->
  (observe client (params m) w).1 = inr found ->
  let r := finish (main env client m) (start w) in
  let w1 := (observe client (params m) w).2 in
  decisions (trace r.2) `sublist_of` [Delete]
  /\ (found = None ->
      r = (exit_json None None (Some "User not found"),
           {| world := w1; trace := [search_call (params m)] |}))
  /\ (check_mode m = true -> decisions (trace r.2) = [])
  /\ (forall u name, found = Some u -> check_mode m = false ->
        username (params m) = Some name ->
        trace r.2 = [search_call (params m); RemoveUser (Some name)]
        /\ r.1 = match (client_remove_user client (Some name) w1).1 with
                 | inl e => fail_json ("Failed to remove the user: " ++ e)
                 | inr msg => exit_json (Some true) None (Some msg)
                 end).
Proof.
  intros Hst Hpre Hobs r w1. subst r.
  rewrite main_run, Hobs by done. fold w1. unfold dispatch. rewrite Hst.
  destruct found as [u|].
  - destruct (check_mode m) eqn:Hc.
    + unfold finish, halt. cbn [fst snd trace].
      rewrite decisions_search_cons.
      repeat split; try done. repeat constructor.
    + unfold delete_user. destruct (username (params m)) as [name|] eqn:Hn.
      * unfold_run. cbn [is_None world trace].
        destruct (client_remove_user client (Some name) w1)
          as [[e|msg] w2] eqn:E;
          cbn [fst snd trace app]; rewrite decisions_search_cons;
          (split; [repeat constructor|]); (split; [done|]);
          (split; [done|]); intros ? ? _ _ [= <-]; by rewrite E.
      * unfold finish, halt. cbn [is_None fst snd trace].
        rewrite decisions_search_cons.
        repeat split; try done. repeat constructor.
  - unfold finish, halt. cbn [fst snd trace]. rewrite decisions_search_cons.
    repeat split; try done. repeat constructor.
Qed.

Lemma absent_removes_at_most_once_witness :
  let m := {| params := joey_removed; check_mode := false |} in
  let r := finish (main env_ok account_client m) (start (Some joey)) in
  state (params m) = absent
  /\ preamble_ok env_ok (params m)
  /\ (observe account_client (params m) (Some joey)).1 = inr (Some joey)
  /\ trace r.2 = [GetUser (PyStr "joey"); RemoveUser (Some "joey")].
Proof.
  split; [reflexivity|]. split; [by apply env_ok_preamble|].
  split; [reflexivity|].
  destruct (absent_removes_at_most_once env_ok account_client
              {| params := joey_removed; check_mode := false |} (Some joey)
              (Some joey) eq_refl (env_ok_preamble joey_removed eq_refl)
              eq_refl) as (_ & _ & _ & H).
  exact (proj1 (H joey "joey" eq_refl eq_refl eq_refl)).
Defined.

(** ** The preamble *)

(** X2.  Unless the module has its credentials, a region it knows and a
    client, it fails before it talks to the API: no call is made and the
    world is as it was.  A missing library fails with the text of the
    [ImportError], and an unknown region with the list of the regions. *)
Theorem no_call_without_preamble {W} `{D : Diff} (env : Env)
    (client : Client W) (m : Module) (w : W) :
  ~ preamble_ok env (params m) ->
  (exists msg, finish (main env client m) (start w) = (fail_json msg, start w))
  /\ (forall e, get_credentials env = inl e ->
        finish (main env client m) (start w) = (fail_json e, start w))
  /\ (forall c, get_credentials env = inr c ->
        region (params m) ∉ get_regions env ->
        finish (main env client m) (start w)
        = (fail_json ("Invalid region. Regions must be one of "
                      ++ repr_list (get_regions env)), start w)).
Proof.
  intros Hno. unfold main, finish, halt.
  destruct (get_credentials env) as [e|c] eqn:Hc.
  { split; [by eexists|]. split; [by intros ? [= <-]|done]. }
  case_bool_decide as Hr; simpl.
  2: { split; [by eexists|]. split; [done|]. done. }
  split; [|split; [done|]; by intros ? _ ?].
  destruct c as [[]|]; simpl; [|by eexists].
  destruct (client_init env) as [msg|] eqn:Hi; [by eexists|].
  destruct Hno. by repeat split.
Qed.

Lemma no_call_without_preamble_witness :
  let m := {| params := joey_desired; check_mode := false |} in
  ~ preamble_ok env_no_library (params m)
  /\ finish (main env_no_library account_client m) (start (Some joey))
     = (fail_json "Missing Python module: requests", start (Some joey)).
Proof.
  assert (H : ~ preamble_ok env_no_library joey_desired).
  { by intros [[=] _]. }
  split; [exact H|].
  exact (proj1 (proj2 (no_call_without_preamble env_no_library account_client
                         {| params := joey_desired; check_mode := false |}
                         (Some joey) H)) _ eq_refl).
Defined.

(** X3.  The [changed] flag of an exit is sound, for every environment,
    client and request: an exit with [changed=False] made no write, and an
    exit with [changed=True] made at least one. *)
Theorem changed_flag_is_sound {W} `{D : Diff} (env : Env)
    (client : Client W) (m : Module) (w : W) :
  let r := finish (main env client m) (start w) in
  (forall dat msg, r.1 = exit_json (Some false) dat msg ->
     decisions (trace r.2) = [])
  /\ (forall dat msg, r.1 = exit_json (Some true) dat msg ->
        decisions (trace r.2) <> []).
Proof.
  unfold main. unfold_run. simpl.
  destruct (get_credentials env) as [?|[]]; simpl;
    destruct (bool_decide (region (params m) ∈ get_regions env)); simpl;
    destruct (client_init env); simpl;
    destruct (state (params m)); repeat step;
    (split; intros dat msg; [intros [=] | intros [=]]); try done.
Qed.

(** ** Errors of the API *)

Section Refusal.
Context {W : Type} `{D : Diff} (client : Client W).

(** X4.  A password change that the API refuses ends the run at once:
  the module fails with the error of the API, its double quotes
  replaced, and the refused call is the last one of the run. *)
Theorem failed_password_change (m : Module) (u : User) (s : run_state W) e :
truthy (of_str (new_password (params m))) = true ->
(client_change_user_password client (get u "userName")
   (new_password (params m)) (world s)).1 = inl e ->
finish (converge client m u) s
= (fail_json (replace_quotes e),
   {| world := (client_change_user_password client (get u "userName")
                  (new_password (params m)) (world s)).2;
      trace := trace s ++ [ChangeUserPassword (get u "userName")
                             (new_password (params m))] |}).
Proof.
intros Hpw He. unfold_run. rewrite Hpw. simpl.
destruct (client_change_user_password _ _ _ _) as [r w']. simpl in *.
by rewrite He.
Qed.

Ltac roles_step H :=
match goal with
| |- context [client_set_user_roles ?c ?a ?r ?w] =>
    let E := fresh "E" in
    destruct (client_set_user_roles c a r w) as [[?|?] ?] eqn:E;
    [ pose proof (H a r w) as E'; rewrite E in E'; simpl in E';
      injection E' as ->
    | pose proof (H a r w) as E'; rewrite E in E'; discriminate ];
    simpl
end.

(** X5.  Under an API that refuses every change of roles with the error
  [e], a reconciliation that decides to update the roles fails with
  [e], and the refused call is its last one: neither the re-read of the
  user nor the update of the payload follows. *)
Theorem failed_role_update (m : Module) (u : User) (s : run_state W) e :
(forall name rs w, (client_set_user_roles client name rs w).1 = inl e) ->
exists calls,
  trace (finish (converge client m u) s).2 = (trace s ++ calls)%list
  /\ (UpdateRoles (roles (params m)) ∈ decisions calls ->
      (finish (converge client m u) s).1 = fail_json (replace_quotes e)
      /\ last calls
         = Some (SetUserRoles (username (params m)) (roles (params m)))).
Proof.
intros H. unfold_run. simpl.
repeat (first [roles_step H | step]).
all: appended.
all: try (intros Hin;
  repeat (apply elem_of_cons in Hin as [? | Hin]; [done|]);
  by apply elem_of_nil in Hin).
all: by intros _.
Qed.

End Refusal.

Lemma failed_password_change_witness :
  let m := {| params := joey_desired; check_mode := false |} in
  truthy (of_str (new_password (params m))) = true
  /\ trace (finish (converge refusing_client m joey) (start (Some joey))).2
     = [ChangeUserPassword (PyStr "joey") (Some "x")].
Proof.
  split; [reflexivity|].
  exact (f_equal (fun r => trace r.2)
           (failed_password_change refusing_client
              {| params := joey_desired; check_mode := false |} joey
              (start (Some joey)) "denied" eq_refl eq_refl)).
Defined.

Lemma failed_role_update_witness :
  let m := {| params := joey_more_roles; check_mode := false |} in
  exists calls,
    trace (finish (converge refusing_client m joey) (start (Some joey))).2
    = calls
    /\ (UpdateRoles (roles (params m)) ∈ decisions calls ->
        last calls
        = Some (SetUserRoles (username (params m)) (roles (params m)))).
Proof.
  destruct (failed_role_update refusing_client
              {| params := joey_more_roles; check_mode := false |} joey
              (start (Some joey)) "denied" (fun _ _ _ => eq_refl))
    as (calls & Ht & H).
  exists calls. split; [exact Ht|]. intros Hin. exact (proj2 (H Hin)).
Defined.

(** ** Creation *)

Lemma replace_quotes_clean (s : string) :
  has_dquote (replace_quotes s) = false.
Proof.
  induction s as [|c r IH]; [done|]. simpl. rewrite IH, orb_false_r.
  destruct (Ascii.eqb c dquote) eqn:E; [done|]. exact E.
Qed.

Section Create.
Context {W : Type} `{D : Diff} (client : Client W).

Lemma create_user_invalid (m : Module) (s : run_state W) :
create_valid (params m) = false ->
exists msg, finish (create_user client m) s = (fail_json msg, s)
            /\ has_dquote msg = false.
Proof.
unfold create_valid, create_user, finish, halt.
fold (missing_required (params m)).
destruct (missing_required (params m)); [by eexists|].
destruct (negb (is_None (phone (params m))) && _); [by eexists|].
destruct (negb (is_None (roles (params m))) && _); [by eexists|].
done.
Qed.

(** X6.  [create_user] fails without a call, and without a change of the
  world, exactly when the parameters do not pass its three tests; a
  phone number without a country code never passes.  Parameters that
  pass are sent to the API as they are: when the creation is refused
  the run fails with that error after the one call, and otherwise the
  user is read back by the [username] parameter and reported with
  [changed=True], or the run fails with the error of that read. *)
Theorem create_user_calls_iff_valid (m : Module) (s : run_state W) :
((exists msg, finish (create_user client m) s = (fail_json msg, s))
 <-> create_valid (params m) = false)
/\ (phone (params m) <> None -> phone_country_code (params m) = None ->
    create_valid (params m) = false)
/\ (create_valid (params m) = true ->
    let a := client_create_user client (username (params m))
               (password (params m)) (roles (params m))
               (profile_of (params m)) (world s) in
    let call1 := CreateUser (username (params m)) (password (params m))
                   (roles (params m)) (profile_of (params m)) in
    let call2 := GetUser (of_str (username (params m))) in
    match a.1 with
    | inl e =>
        finish (create_user client m) s
        = (fail_json (replace_quotes e),
           {| world := a.2; trace := trace s ++ [call1] |})
    | inr _ =>
        let b := client_get_user client (of_str (username (params m)))
                   a.2 in
        finish (create_user client m) s
        = (match b.1 with
           | inl e => fail_json (replace_quotes e)
           | inr user => exit_json (Some true) (Some (DUser user)) None
           end,
           {| world := b.2; trace := trace s ++ [call1; call2] |})
    end).
Proof.
split; [split|split].
- intros (msg & E). destruct (create_valid (params m)) eqn:Hv; [|done].
  destruct (create_user_valid client m s Hv) as (calls & Ht & Hd).
  rewrite E in Ht. simpl in Ht.
  assert (calls = []) as ->.
  { apply (f_equal length) in Ht. rewrite length_app in Ht.
    destruct calls; [done|]. simpl in Ht. lia. }
  done.
- intros Hv. destruct (create_user_invalid m s Hv) as (msg & E & _).
  by eexists.
- intros Hp Hc. unfold create_valid. rewrite Hc.
  destruct (phone (params m)); [|done]. simpl.
  by rewrite andb_false_r.
- unfold create_valid.
  intros [[H1 H2]%andb_true_iff H3]%andb_true_iff.
  apply negb_true_iff in H1, H2, H3.
  unfold create_user. fold (missing_required (params m)).
  rewrite H1, H2, H3. unfold_run. simpl.
  destruct (client_create_user _ _ _ _ _ _) as [[e|?] w1]; simpl; [done|].
  destruct (client_get_user _ _ _) as [[e|?] w2]; simpl;
    by rewrite <- app_assoc.
Qed.

Lemma dispatch_present_clean (m : Module) (found : option User)
  (s : run_state W) (msg : string) :
state (params m) = present ->
(finish (dispatch client m found) s).1 = fail_json msg ->
has_dquote msg = false.
Proof.
intros Hst. unfold dispatch. rewrite Hst.
destruct found as [u|].
- explore; intros [=]; subst; apply replace_quotes_clean.
- destruct (check_mode m); [by intros [=]|].
  explore; intros [=]; subst; try apply replace_quotes_clean; done.
Qed.

(** X7.  With [state=present], once the module has its client, no
  failure message holds a double quote, whatever the API answers: the
  errors of the search, of the creation, of the password change, of the
  role update, of the payload update and of every re-read all pass
  through the replacement of quotes, and the messages of the module
  itself hold none. *)
Theorem present_failures_have_no_dquote (env : Env) (m : Module) (w : W)
  (msg : string) :
preamble_ok env (params m) ->
state (params m) = present ->
(finish (main env client m) (start w)).1 = fail_json msg ->
has_dquote msg = false.
Proof.
intros Hpre Hst. rewrite main_run by done.
destruct (observe client (params m) w).1 as [e|found].
- intros [= <-]. apply replace_quotes_clean.
- by apply dispatch_present_clean.
Qed.

End Create.

Lemma present_failures_have_no_dquote_witness :
  let m := {| params := only_username "joey"; check_mode := false |} in
  let msg := "A valid value for username, password, fullname, firstname, lastname and email are required" in
  preamble_ok env_ok (params m)
  /\ state (params m) = present
  /\ (finish (main env_ok account_client m) (start None)).1 = fail_json msg
  /\ has_dquote msg = false.
Proof.
  split; [by apply env_ok_preamble|]. split; [reflexivity|].
  split; [reflexivity|].
  exact (present_failures_have_no_dquote account_client env_ok
           {| params := only_username "joey"; check_mode := false |} None _
           (env_ok_preamble (only_username "joey") eq_refl) eq_refl eq_refl).
Defined.

(** ** Who the calls of a reconciliation are addressed to *)

Section Addressing.
Context {W : Type} `{D : Diff} (client : Client W).

Ltac each_call :=
intros c Hin;
repeat (apply elem_of_cons in Hin as [-> | Hin]);
try (by apply elem_of_nil in Hin); simpl; try done.

(** X8.  Every re-read of a reconciliation follows [my_user]: with
  [my_user] no call asks for a user by name, and without it no call
  asks for the user of the credentials. *)
Theorem converge_reads_follow_my_user (m : Module) (u : User)
  (s : run_state W) :
exists calls,
  trace (finish (converge client m u) s).2 = (trace s ++ calls)%list
  /\ forall c, c ∈ calls ->
       if my_user (params m) then is_get_user c = false
       else is_get_my_user c = false.
Proof. explore; appended; each_call. Qed.

(** X9.  The password change is addressed to the [userName] of the user
  that was found and carries [new_password]; the role update is
  addressed to the [username] parameter and carries [roles]; the payload
  update carries the nine profile parameters as they were given and,
  when no role update came before it, is addressed to the [userName] of
  the user that was found. *)
Theorem converge_addresses (m : Module) (u : User) (s : run_state W) :
exists calls,
  trace (finish (converge client m u) s).2 = (trace s ++ calls)%list
  /\ (forall name pw, ChangeUserPassword name pw ∈ calls ->
        name = get u "userName" /\ pw = new_password (params m))
  /\ (forall name rs, SetUserRoles name rs ∈ calls ->
        name = username (params m) /\ rs = roles (params m))
  /\ (forall name kw, UpdateUser name kw ∈ calls ->
        kw = profile_of (params m)
        /\ ((forall n rs, SetUserRoles n rs ∉ calls) ->
            name = get u "userName")).
Proof.
explore; appended.
all: (split; [|split]); intros ? ? Hin;
  repeat (apply elem_of_cons in Hin as [Hin | Hin]; simplify_eq);
  try (by apply elem_of_nil in Hin); try done.
all: split; [done|]; intros Hno.
all: try (simpl in *; by simplify_eq).
all: exfalso; eapply Hno; repeat constructor.
Qed.

End Addressing.

(** ** The merged record of [compare_user] *)

Lemma phone_object_spec (u : User) :
  phone_object u = true <-> phone_is_object u.
Proof.
  unfold phone_object, phone_is_object, get.
  destruct (u !! "phone") as [[a|l|d]|] eqn:E; simpl.
  - split; [intros ->%negb_true_iff; by left|].
    intros [->|(m & [=])]; done.
  - split; [intros ->%negb_true_iff; by left|].
    intros [->|(m & [=])]; done.
  - split; [eauto|done].
  - split; [by left|done].
Qed.

Lemma candidate_phone_entry p (d : User) :
  candidate_phone p (Some d)
  = match phone_entry p (d !! "phone") with
    | inl e => inl e
    | inr o => inr (Some (partial_alter (fun _ => o) "phone" d))
    end.
Proof.
  unfold candidate_phone, phone_entry. destruct (remove_phone p).
  { rewrite drop_phone_Some. unfold get. f_equal. f_equal.
    destruct (truthy (of_opt (d !! "phone"))); [done|].
    apply map_eq. intros k. destruct (decide (k = "phone")) as [->|Hk].
    - by rewrite lookup_partial_alter_eq.
    - by rewrite lookup_partial_alter_ne. }
  rewrite set_number_Some. unfold phone_base, get.
  destruct (truthy (of_int (phone p))).
  - destruct (if truthy (of_opt (d !! "phone")) then of_opt (d !! "phone")
              else VDict ∅) as [a|l|m]; try done.
    rewrite !raises_bind_inr, set_country_code_Some.
    unfold get. rewrite lookup_insert_eq.
    change (of_opt (Some ?x)) with x.
    destruct (_ && _); [|done].
    by rewrite insert_insert_eq.
  - rewrite !raises_bind_inr, set_country_code_Some. unfold get.
    destruct (_ && _).
    + destruct (of_opt (d !! "phone")); done.
    + f_equal. f_equal. apply map_eq. intros k.
      destruct (decide (k = "phone")) as [->|Hk].
      * by rewrite lookup_partial_alter_eq.
      * by rewrite lookup_partial_alter_ne.
Qed.

Lemma truthy_dict_insert k (a : atom) (m : gmap string atom) :
  truthy (VDict (<[k := a]> m)) = true.
Proof.
  simpl. apply negb_true_iff, bool_decide_eq_false, insert_non_empty.
Qed.

Lemma raises_bind_inl {A B} (e : pyexn) (f : A -> raises B) :
  (inl e ≫= f) = inl e.
Proof. reflexivity. Qed.

Lemma phone_entry_raises p o e :
  phone_entry p o = inl e
  <-> e = TypeError /\ remove_phone p = false
      /\ truthy (of_int (phone p)) || truthy (of_int (phone_country_code p))
         = true
      /\ match of_opt o with VDict _ => true | v => negb (truthy v) end
         = false.
Proof.
  unfold phone_entry. destruct (remove_phone p).
  { split; [done|]. by intros (_ & ? & _). }
  destruct (truthy (of_int (phone p))) eqn:Tp.
  - destruct (truthy (of_opt o)) eqn:To.
    + destruct (of_opt o) as [a|l|m] eqn:Eo.
      * rewrite raises_bind_inl, To.
        split; [by intros [= <-]|]. by intros (-> & _).
      * rewrite raises_bind_inl, To.
        split; [by intros [= <-]|]. by intros (-> & _).
      * rewrite raises_bind_inr.
        change (of_opt (Some ?x)) with x. rewrite truthy_dict_insert.
        destruct (truthy (of_int (phone_country_code p))); simpl;
          (split; [done|]); by intros (_ & _ & _ & ?).
    + rewrite raises_bind_inr.
      change (of_opt (Some ?x)) with x. rewrite truthy_dict_insert.
      assert (match of_opt o with VDict _ => true | v => negb (truthy v) end
              = true) as ->.
      { destruct (of_opt o); simpl in *; by rewrite ?To. }
      destruct (truthy (of_int (phone_country_code p))); simpl;
        (split; [done|]); by intros (_ & _ & _ & ?).
  - rewrite raises_bind_inr.
    destruct (truthy (of_int (phone_country_code p))) eqn:Tc; simpl.
    + destruct (truthy (of_opt o)) eqn:To.
      * destruct (of_opt o) as [a|l|m] eqn:Eo.
        -- simpl in To. rewrite To.
           split; [by intros [= <-]|]. by intros (-> & _).
        -- simpl in To. rewrite To.
           split; [by intros [= <-]|]. by intros (-> & _).
        -- split; [done|]. by intros (_ & _ & _ & ?).
      * split; [done|]. intros (_ & _ & _ & H).
        destruct (of_opt o); simpl in *; by rewrite ?To in H.
    + split; [done|]. by intros (_ & _ & ? & _).
Qed.

Lemma phone_entry_idem p o o' :
  phone_entry p o = inr o' -> phone_entry p o' = inr o'.
Proof.
  unfold phone_entry. destruct (remove_phone p).
  { destruct (truthy (of_opt o)) eqn:To; intros [= <-]; [done|].
    by rewrite To. }
  destruct (truthy (of_int (phone p))) eqn:Tp.
  - destruct (if truthy (of_opt o) then of_opt o else VDict ∅)
      as [a|l|m]; try done.
    rewrite ?raises_bind_inr. change (of_opt (Some ?x)) with x.
    rewrite truthy_dict_insert.
    destruct (truthy (of_int (phone_country_code p))) eqn:Tc; simpl;
      intros [= <-]; change (of_opt (Some ?x)) with x;
      rewrite truthy_dict_insert.
    + rewrite ?raises_bind_inr. change (of_opt (Some ?x)) with x.
      rewrite truthy_dict_insert. simpl. do 3 f_equal.
      rewrite (insert_id (<["countryCode" := _]> _) "number");
        [by rewrite insert_insert_eq|].
      by rewrite lookup_insert_ne, lookup_insert_eq.
    + by rewrite raises_bind_inr, insert_insert_eq.
  - rewrite ?raises_bind_inr.
    destruct (truthy (of_int (phone_country_code p))) eqn:Tc; simpl.
    + destruct (truthy (of_opt o)) eqn:To.
      * destruct (of_opt o) as [a|l|m]; try done. intros [= <-].
        rewrite ?raises_bind_inr. change (of_opt (Some ?x)) with x.
        rewrite truthy_dict_insert. by rewrite insert_insert_eq.
      * intros [= <-]. by rewrite ?raises_bind_inr, To.
    + intros [= <-]. by rewrite ?raises_bind_inr.
Qed.

Lemma candidate_closed p (u : User) full :
  candidate p (Some u) full
  = match phone_entry p (u !! "phone") with
    | inl e => inl e
    | inr o =>
        inr (Some (after_phone p
                     (partial_alter (fun _ => o) "phone"
                        (before_phone p full u))))
    end.
Proof.
  rewrite candidate_Some, candidate_phone_entry, lookup_before_phone.
  by destruct (phone_entry p (u !! "phone")).
Qed.

(** X10.  On a user that exists, the merge of [compare_user] raises in
    one case only: [remove_phone] is off, [phone] or [phone_country_code]
    is truthy, and the phone entry of the user is truthy without being an
    object.  What it raises then is [TypeError].  No other parameter and no
    other entry of the user can make it raise. *)
Theorem candidate_raises_iff (p : Params) (u : User) (full : bool) e :
  candidate p (Some u) full = inl e
  <-> e = TypeError /\ remove_phone p = false
      /\ truthy (of_int (phone p)) || truthy (of_int (phone_country_code p))
         = true
      /\ phone_object u = false.
Proof.
  rewrite candidate_closed. unfold phone_object, get.
  destruct (phone_entry p (u !! "phone")) as [e'|o] eqn:Ho.
  - split.
    + intros [= <-]. by apply phone_entry_raises.
    + intros H. apply phone_entry_raises in H. congruence.
  - split; [done|]. intros H. apply phone_entry_raises in H. congruence.
Qed.

Lemma put_fixed k v (x : User) :
  (truthy v = true -> x !! k = Some v) -> put k v x = x.
Proof.
  intros H. unfold put. destruct (truthy v); [|done]. by apply insert_id, H.
Qed.

Ltac find_key :=
  unfold after_phone, before_phone; cbv beta iota zeta;
  repeat first [ rewrite lookup_put_untouched by done
               | rewrite lookup_partial_alter_ne by done ];
  rewrite lookup_put; intros ->; done.

(** X11.  The merge of [compare_user] is idempotent: merging the desired
    state into a record that it has already been merged into returns that
    record. *)
Theorem candidate_idempotent (p : Params) (u : User) (full : bool) r :
  candidate p (Some u) full = inr r -> candidate p r full = inr r.
Proof.
  rewrite candidate_closed.
  destruct (phone_entry p (u !! "phone")) as [e|o] eqn:Ho; [done|].
  intros [= <-]. rewrite candidate_closed.
  set (nu := after_phone p (partial_alter (fun _ => o) "phone"
                              (before_phone p full u))).
  assert (Hph : nu !! "phone" = o).
  { subst nu. unfold after_phone. rewrite !lookup_put_untouched by done.
    apply lookup_partial_alter_eq. }
  rewrite Hph, (phone_entry_idem _ _ _ Ho).
  assert (Hb : before_phone p full nu = nu).
  { subst nu. destruct full; unfold before_phone at 1; cbv beta iota zeta.
    - rewrite (put_fixed "fullName") by find_key.
      rewrite (put_fixed "lastName") by find_key.
      rewrite (put_fixed "firstName") by find_key.
      rewrite (put_fixed "emailAddress") by find_key.
      apply put_fixed. find_key.
    - rewrite (put_fixed "fullName") by find_key.
      rewrite (put_fixed "lastName") by find_key.
      rewrite (put_fixed "firstName") by find_key.
      apply put_fixed. find_key. }
  rewrite Hb.
  assert (Hp : partial_alter (fun _ => o) "phone" nu = nu).
  { apply map_eq. intros k. destruct (decide (k = "phone")) as [->|Hk].
    - by rewrite lookup_partial_alter_eq.
    - by rewrite lookup_partial_alter_ne. }
  rewrite Hp. do 2 f_equal. clear Hph Hb Hp. subst nu.
  destruct full; unfold after_phone at 1; cbv beta iota zeta.
  - rewrite (put_fixed "department") by find_key.
    rewrite (put_fixed "customDefined1") by find_key.
    apply put_fixed. find_key.
  - rewrite (put_fixed "department") by find_key.
    rewrite (put_fixed "customDefined1") by find_key.
    apply put_fixed. find_key.
Qed.

Lemma candidate_idempotent_witness :
  exists r,
    candidate joey_phone (Some joey) true = inr r
    /\ candidate joey_phone r true = inr r.
Proof.
  destruct (candidate_total joey_phone joey true) as (nu & Hnu); [by left|].
  exists (Some nu). split; [exact Hnu|].
  exact (candidate_idempotent joey_phone joey true (Some nu) Hnu).
Defined.

Lemma unwritten_untouched p full k :
  k ∉ written_keys -> touched p full k = false.
Proof.
  unfold written_keys. intros Hk.
  repeat (apply not_elem_of_cons in Hk as [? Hk]).
  unfold touched.
  by rewrite !bool_decide_eq_false_2 by done.
Qed.

Lemma is_Some_put k v (d : User) j :
  is_Some (d !! j) -> is_Some (put k v d !! j).
Proof.
  intros H. rewrite lookup_put. by destruct (_ && _).
Qed.

(** X12.  The merge of [compare_user] writes nine keys and no other:
    every other entry of the user, [userName] among them, is in the merged
    record as it was.  No entry but [phone] is ever removed, and without
    [full_compare] the roles of the user are left as they were. *)
Theorem candidate_keeps_other_keys (p : Params) (u : User) (full : bool) r :
  candidate p (Some u) full = inr r ->
  exists nu, r = Some nu
  /\ (forall k, k ∉ written_keys -> nu !! k = u !! k)
  /\ (forall k, k <> "phone" -> is_Some (u !! k) -> is_Some (nu !! k))
  /\ (full = false -> nu !! "role" = u !! "role").
Proof.
  intros Hc.
  destruct (candidate_is_record _ _ _ _ Hc) as (d & Hp & ->).
  eexists; split; [done|]. split; [|split].
  - intros k Hk.
    destruct (candidate_frame _ _ _ _ k Hc) as (nu & [= <-] & E); [|done].
    by apply unwritten_untouched.
  - intros k Hk Hs.
    apply candidate_phone_frame in Hp as (d' & [= <-] & Hf).
    unfold after_phone. do 3 apply is_Some_put. rewrite Hf by done.
    unfold before_phone. destruct full; repeat apply is_Some_put; done.
  - intros ->.
    destruct (candidate_role _ _ _ _ Hc) as (nu & [= <-] & E). exact E.
Qed.

Lemma candidate_keeps_other_keys_witness :
  exists nu,
    candidate joey_desired (Some joey) false = inr (Some nu)
    /\ nu !! "userName" = Some (PyStr "joey")
    /\ nu !! "role" = Some (VList [AStr "network"]).
Proof.
  destruct (candidate_total joey_desired joey false) as (nu & Hnu);
    [by left|].
  destruct (candidate_keeps_other_keys joey_desired joey false _ Hnu)
    as (nu' & [= <-] & Hk & _ & Hr).
  exists nu. split; [exact Hnu|]. split.
  - rewrite Hk; [reflexivity|]. unfold written_keys.
    intros Hin. repeat (apply elem_of_cons in Hin as [[=]|Hin]).
    by apply elem_of_nil in Hin.
  - by rewrite Hr.
Defined.

Lemma overwrite_None k v :
  overwrite k v None = if truthy v then inl TypeError else inr None.
Proof. unfold overwrite. by destruct (truthy v). Qed.

Lemma candidate_phone_None p :
  candidate_phone p None
  = if remove_phone p || truthy (of_int (phone p))
       || truthy (of_int (phone_country_code p))
    then inl AttributeError else inr None.
Proof.
  unfold candidate_phone, drop_phone, set_number, set_country_code.
  destruct (remove_phone p); [done|].
  destruct (truthy (of_int (phone p))); [done|].
  by destruct (truthy (of_int (phone_country_code p))).
Qed.

Lemma candidate_of_no_user (p : Params) (full : bool) :
  (asks p full = false -> candidate p None full = inr None)
  /\ (asks p full = true ->
      candidate p None full = inl TypeError
      \/ candidate p None full = inl AttributeError).
Proof.
  unfold asks, candidate. rewrite !overwrite_None.
  destruct (truthy (of_str (fullname p))); [by split; [|left]|].
  rewrite raises_bind_inr, overwrite_None.
  destruct (truthy (of_str (lastname p))); [by split; [|left]|].
  rewrite raises_bind_inr, overwrite_None.
  destruct (truthy (of_str (firstname p))); [by split; [|left]|].
  rewrite raises_bind_inr, overwrite_None.
  destruct (truthy (of_str (email p))); [by split; [|left]|].
  rewrite raises_bind_inr.
  assert (E : (if full then overwrite "role" (of_opt (roles p)) None
               else inr None)
              = if full && truthy (of_opt (roles p))
                then inl TypeError else inr None).
  { destruct full; [apply overwrite_None | done]. }
  rewrite E. clear E.
  destruct (full && truthy (of_opt (roles p))); [by split; [|left]|].
  rewrite raises_bind_inr, candidate_phone_None. simpl.
  destruct (remove_phone p || _ || _); [by split; [|right]|].
  rewrite raises_bind_inr, overwrite_None. simpl.
  destruct (truthy (of_str (department p))); [by split; [|left]|].
  rewrite raises_bind_inr, overwrite_None. simpl.
  destruct (truthy (of_str (custom_1 p))); [by split; [|left]|].
  rewrite raises_bind_inr, overwrite_None. simpl.
  destruct (truthy (of_str (custom_2 p))); [by split; [|left]|].
  by split.
Qed.

(** ** A user that is gone when it is read again *)

Section Vanished.
Context {W : Type} `{D : Diff} (client : Client W).

(** X13.  When the roles are updated and the user is gone by the time it
  is read again, the run never ends in [fail_json].  If the desired
  state asks anything of the profile, the second [compare_user] raises
  [TypeError] or [AttributeError] on the missing user.  If it asks
  nothing, the run exits with [changed=True] and no user as its data,
  unless [compare_json] reports a change between nothing and nothing,
  in which case [update_user] raises [AttributeError].  Either way the
  role update and the re-read are the only calls. *)
Theorem vanished_user (m : Module) (u : User) (s : run_state W) c w1 :
check_mode m = false ->
truthy (of_str (new_password (params m))) = false ->
candidate (params m) (Some u) true = inr c ->
changes (compare_user_roles m (get u "role")) = true ->
client_set_user_roles client (username (params m)) (roles (params m))
  (world s) = (inr tt, w1) ->
(observe client (params m) w1).1 = inr None ->
let r := finish (converge client m u) s in
r.2 = {| world := (observe client (params m) w1).2;
         trace := trace s ++ [SetUserRoles (username (params m))
                                (roles (params m));
                              search_call (params m)] |}
/\ (asks (params m) false = true ->
    r.1 = uncaught TypeError \/ r.1 = uncaught AttributeError)
/\ (asks (params m) false = false ->
    r.1 = if changes (compare_json None None None)
          then uncaught AttributeError
          else exit_json (Some true) (Some (DUser None)) None).
Proof.
intros Hchk Hpw Hc Hroles Hset Hobs r. subst r.
unfold converge, compare_user, update_user_roles, update_user.
unfold mbind, M_bind, mret, M_ret, bind, ret, halt, call, finish.
rewrite Hpw, Hc, Hchk, Hroles. cbn [world trace]. rewrite Hset.
cbn [world trace].
unfold observe, search_call in *.
destruct (my_user (params m)).
- cbn [world trace].
  destruct (client_get_my_user client w1) as [[e|found] w2].
  { done. }
  simpl in Hobs. injection Hobs as ->. cbn [world trace fst snd].
  destruct (candidate_of_no_user (params m) false) as [H0 H1].
  destruct (asks (params m) false).
  + destruct (H1 eq_refl) as [-> | ->]; cbn [fst snd];
      rewrite <- app_assoc; (split; [done|]; split; [auto|done]).
  + rewrite (H0 eq_refl).
    destruct (changes (compare_json None None None)); cbn [fst snd getattr_get];
      rewrite <- app_assoc; (split; [done|]; split; done).
- cbn [world trace].
  destruct (client_get_user client _ w1) as [[e|found] w2].
  { done. }
  simpl in Hobs. injection Hobs as ->. cbn [world trace fst snd].
  destruct (candidate_of_no_user (params m) false) as [H0 H1].
  destruct (asks (params m) false).
  + destruct (H1 eq_refl) as [-> | ->]; cbn [fst snd];
      rewrite <- app_assoc; (split; [done|]; split; [auto|done]).
  + rewrite (H0 eq_refl).
    destruct (changes (compare_json None None None)); cbn [fst snd getattr_get];
      rewrite <- app_assoc; (split; [done|]; split; done).
Qed.
End Vanished.

Lemma vanished_user_witness :
  let m := {| params := joey_more_roles; check_mode := false |} in
  check_mode m = false
  /\ truthy (of_str (new_password (params m))) = false
  /\ (exists c, candidate (params m) (Some joey) true = inr c)
  /\ changes (compare_user_roles m (get joey "role")) = true
  /\ asks (params m) false = false
  /\ report_of (finish (converge vanishing_client m joey)
                  (start (Some joey))).1
     = Exited (Some true) (Some None) None.
Proof.
  destruct (candidate_total joey_more_roles joey true) as (nu & Hnu);
    [by left|].
  split; [reflexivity|]. split; [reflexivity|]. split; [by eexists|].
  assert (Hr : changes (compare_user_roles
                          {| params := joey_more_roles; check_mode := false |}
                          (get joey "role")) = true) by (vm_compute; reflexivity).
  split; [exact Hr|]. split; [reflexivity|].
  destruct (vanished_user vanishing_client
              {| params := joey_more_roles; check_mode := false |} joey
              (start (Some joey)) _ None eq_refl eq_refl Hnu Hr eq_refl eq_refl)
    as (_ & _ & H).
  rewrite (H eq_refl). reflexivity.
Defined.

(** * Properties of the information modules *)


Section Geo.
Context {J W : Type}.

(** X15.  [geo_info] makes at most one call, with the three parameters as
  given.  An exit reports [totalCount] and [geographicRegion] of the
  answer under [count] and [geo], [None] when the answer has no such
  entry, and every other entry as [return_object] made it.  With a
  client, an answer that is a dict always exits; an answer that is
  [None] raises [AttributeError]; an error of the API fails with that
  error.  An error of the API while the client is made is not handled. *)
Theorem geo_info_returns (env : Env) (return_object : GeoInfo.pydict (J:=J))
  (client : GeoInfo.Client (W:=W)) (p : GeoInfo.Params) (w : W) :
let r := GeoInfo.main env return_object client p w in
let c := GeoInfo.GetGeo (GeoInfo.id p) (GeoInfo.name p) (GeoInfo.is_home p) in
let a := client (GeoInfo.id p) (GeoInfo.name p) (GeoInfo.is_home p) w in
(r.2 = [] /\ r.1.2 = w \/ r.2 = [c] /\ r.1.2 = a.2)
/\ (forall d, r.1.1 = info_exit d ->
      exists result, a.1 = inr (Some result)
        /\ d !! "count" = Some (GeoInfo.dict_get result "totalCount")
        /\ d !! "geo" = Some (GeoInfo.dict_get result "geographicRegion")
        /\ forall k, k <> "count" -> k <> "geo" ->
             d !! k = return_object !! k)
/\ (credentials_ok env (GeoInfo.region p) -> client_init env = None ->
    match a.1 with
    | inl exc => r.1.1 = info_fail ("Could not get a list of Geos - " ++ exc)
    | inr None => r.1.1 = info_crash (Traceback AttributeError)
    | inr (Some _) => exists d, r.1.1 = info_exit d
    end)
/\ (forall msg, credentials_ok env (GeoInfo.region p) ->
      client_init env = Some msg ->
      r = (info_crash (Unhandled msg), w, [])).
Proof.
unfold GeoInfo.main, GeoInfo.get_geo, credentials_ok, GeoInfo.pydict in *.
destruct (get_credentials env) as [e|c]; simpl.
{ split; [by left|]. split; [done|]. split; [by intros [[=] _]|by intros ? [[=] _]]. }
case_bool_decide as Hr; simpl.
2: { split; [by left|]. split; [done|]. split; [by intros [_ ?]|].
     by intros ? [_ ?]. }
destruct c as [[]|]; simpl.
2: { split; [by left|]. split; [done|]. split; [by intros [[=] _]|by intros ? [[=] _]]. }
destruct (client_init env) as [msg|]; simpl.
{ split; [by left|]. split; [done|]. split; [done|]. by intros ? _ [= <-]. }
destruct (client _ _ _ w) as [[exc|[result|]] w1]; simpl.
- split; [by right|]. split; [done|]. split; done.
- split; [by right|]. split; [|split; [eauto|done]].
  intros d [= <-]. exists result. split; [done|].
  split; [by rewrite lookup_insert_ne, lookup_insert_eq by done|].
  split; [by rewrite lookup_insert_eq|].
  intros k Hc Hg. by rewrite !lookup_insert_ne by done.
- split; [by right|]. split; [done|]. split; done.
Qed.
End Geo.

Section Vip.
Context {J W : Type}.
Import VipFunctionInfo.

(** X16.  [vip_function_info] lists the functions only after it has found
  the network domain, with the [id] entry of that domain ([None] when
  it has none) and the [type] parameter; on every exit [count] is the
  length of the list.  While listing, only an [NTTMCPAPIException] ends
  in [fail_json]: any other exception the handler catches, and a list
  that is [None], end in an [AttributeError] raised by the handler
  itself, which reads [e.msg].  An error of the lookup fails with the
  name of the network domain when the handler catches it, and is not
  handled otherwise. *)
Theorem vip_functions_after_lookup (env : Env) (client : Client (J:=J) (W:=W))
  (p : Params) (w : W) :
let r := main env client p w in
let c1 := GetNetworkDomainByName (network_domain p) (datacenter p) in
let a := client_get_network_domain_by_name client (network_domain p)
           (datacenter p) w in
(forall id ft, ListVipFunction id ft ∈ r.2 ->
   exists network, a.1 = inr (Some network)
     /\ id = dict_get network "id" /\ ft = type p
     /\ r.2 = [c1; ListVipFunction id ft])
/\ (forall d, r.1.1 = exit_json d -> count d = length (vip_function d))
/\ (forall network, credentials_ok env (region p) ->
      client_init env = None -> a.1 = inr (Some network) ->
      let b := client_list_vip_function client (dict_get network "id")
                 (type p) a.2 in
      r.2 = [c1; ListVipFunction (dict_get network "id") (type p)]
      /\ r.1.1 = match b.1 with
                 | inl (NTTMCPAPIException msg) =>
                     fail_json ("Could not find any VIP Functions of type "
                                ++ type p ++ ": " ++ msg)
                 | inl _ | inr None => uncaught AttributeError
                 | inr (Some l) =>
                     exit_json {| count := length l; vip_function := l |}
                 end)
/\ (forall e, credentials_ok env (region p) -> client_init env = None ->
      a.1 = inl e ->
      r.2 = [c1]
      /\ r.1.1 = if caught_by_lookup e
                 then fail_json ("Could not find the Cloud Network Domain: "
                                 ++ network_domain p)
                 else uncaught e).
Proof.
unfold main, find, list_functions, credentials_ok.
destruct (get_credentials env) as [e|c]; simpl.
{ split; [by intros ? ? ?%elem_of_nil|]. split; [done|].
  split; [by intros ? [[=] _]|by intros ? [[=] _]]. }
case_bool_decide as Hr; simpl.
2: { split; [by intros ? ? ?%elem_of_nil|]. split; [done|].
     split; [by intros ? [_ ?]|by intros ? [_ ?]]. }
destruct c as [[]|]; simpl.
2: { split; [by intros ? ? ?%elem_of_nil|]. split; [done|].
     split; [by intros ? [[=] _]|by intros ? [[=] _]]. }
destruct (client_init env) as [msg|]; simpl.
{ split; [by intros ? ? ?%elem_of_nil|]. split; [done|].
  split; [by intros ? _ [=]|by intros ? _ [=]]. }
destruct (client_get_network_domain_by_name client _ _ w)
  as [[e|[network|]] w1]; simpl.
- split.
  { intros ? ? Hin. apply elem_of_cons in Hin as [[=]|Hin].
    by apply elem_of_nil in Hin. }
  split; [by destruct (caught_by_lookup e)|]. split; [done|].
  by intros ? _ _ [= <-].
- destruct (client_list_vip_function client _ _ w1)
    as [[e|[l|]] w2] eqn:E; simpl.
  all: split;
    [ intros ? ? Hin; apply elem_of_cons in Hin as [[=]|Hin];
      apply elem_of_cons in Hin as [[= -> ->]|Hin];
      [ by exists network | by apply elem_of_nil in Hin ] |].
  + split; [by destruct e|]. split; [|done].
    intros ? _ _ [= <-]. split; [done|]. rewrite E. by destruct e.
  + split; [by intros ? [= <-]|]. split; [|done].
    intros ? _ _ [= <-]. split; [done|]. by rewrite E.
  + split; [done|]. split; [|done].
    intros ? _ _ [= <-]. split; [done|]. by rewrite E.
- split.
  { intros ? ? Hin. apply elem_of_cons in Hin as [[=]|Hin].
    by apply elem_of_nil in Hin. }
  split; [done|]. split; done.
Qed.
End Vip.

(** ** The preamble of the four modules *)

Section Preamble.
Context {W1 W2 W3 W4 J3 J4 : Type} `{D : Diff}.

(** X17.  [user], [user_info] and [vip_function_info] share their
  preamble: for the same environment and region, when [user] fails
  before its search, the other two fail with the same message, and
  none of them makes a call.  [geo_info] agrees with them except when
  the constructor of the client raises: it does not catch that error. *)
Theorem modules_share_preamble (env : Env)
  (c1 : Client W1) (m : Module) (w1 : W1)
  (c2 : UserInfo.Client W2) (users : list User) (p2 : UserInfo.Params)
  (w2 : W2)
  (c3 : GeoInfo.Client (J:=J3) (W:=W3)) (geos : GeoInfo.pydict)
  (p3 : GeoInfo.Params) (w3 : W3)
  (c4 : VipFunctionInfo.Client (J:=J4) (W:=W4))
  (p4 : VipFunctionInfo.Params) (w4 : W4) :
UserInfo.region p2 = region (params m) ->
GeoInfo.region p3 = region (params m) ->
VipFunctionInfo.region p4 = region (params m) ->
~ preamble_ok env (params m) ->
exists msg,
  finish (main env c1 m) (start w1) = (fail_json msg, start w1)
  /\ UserInfo.main env users c2 p2 w2 = (info_fail msg, w2, [])
  /\ VipFunctionInfo.main env c4 p4 w4
     = (VipFunctionInfo.fail_json msg, w4, [])
  /\ (GeoInfo.main env geos c3 p3 w3 = (info_fail msg, w3, [])
      \/ client_init env = Some msg
         /\ credentials_ok env (region (params m))
         /\ GeoInfo.main env geos c3 p3 w3
            = (info_crash (Unhandled msg), w3, [])).
Proof.
intros E2 E3 E4 Hno.
unfold main, UserInfo.main, GeoInfo.main, VipFunctionInfo.main, finish,
  halt, credentials_ok.
rewrite E2, E3, E4.
destruct (get_credentials env) as [e|c] eqn:Hc.
{ exists e. repeat split; by left. }
case_bool_decide as Hr; simpl.
2: { eexists. repeat split; by left. }
destruct c as [[]|]; simpl.
2: { eexists. repeat split; by left. }
destruct (client_init env) as [msg|] eqn:Hi.
{ exists msg. repeat split; try done. right. done. }
destruct Hno. by repeat split.
Qed.
End Preamble.

Lemma modules_share_preamble_witness :
  let m := {| params := joey_desired; check_mode := false |} in
  ~ preamble_ok env_refused (params m)
  /\ exists msg,
       finish (main env_refused account_client m) (start (Some joey))
       = (fail_json msg, start (Some joey))
       /\ GeoInfo.main env_refused ∅ empty_geo home_geo tt
          = (info_crash (Unhandled msg), tt, []).
Proof.
  assert (H : ~ preamble_ok env_refused joey_desired).
  { by intros (_ & _ & [=]). }
  split; [exact H|].
  destruct (modules_share_preamble env_refused account_client
              {| params := joey_desired; check_mode := false |} (Some joey)
              directory [] everybody [] empty_geo ∅ home_geo tt
              broken_listing monitors tt eq_refl eq_refl eq_refl H)
    as (msg & H1 & _ & _ & [H3 | (_ & _ & H3)]).
  - discriminate H3.
  - exists msg. split; [exact H1 | exact H3].
Defined.
